(** * Crop-Advisor: rule-based scorer, climate risk engine, risk-adjusted ranker

    Shallow embedding of
      - [src/simple_predictor.py]  ([predict_crops_simple]),
      - [src/modules/weather.py]   ([ClimateRiskEngine]),
      - the classifier branch of [predictcrop] in [src/app.py],
      - of [src/app.py] also the lazily filled globals, the image and crop
        details, the saved prediction and the dashboard figures,
      - [src/modules/chatbot.py]  ([AgriBot.get_answer]).

    Numbers.  The Python code computes on [int] and [float].  Integers are
    [Z]; every other number is an exact rational [Q], so that the decimal
    literals of the source ([0.5], [0.3], [0.7], [5.5], ...) are the
    fractions they denote.  Non-finite floats have no counterpart here.

    Strings are [string]; a Python [str] is read as its UTF-8 bytes. *)

From Stdlib Require Import ZArith QArith Qround Qminmax Qabs Lqa.
From Stdlib Require Import List String Ascii Bool Lia Permutation Sorted.
From Stdlib Require Floats.
Import ListNotations.

Local Open Scope Z_scope.

(** ** Python built-ins used by the source *)

Module Py.

(** [a <= x <= b], a chained comparison. *)
Definition between (a x b : Q) : bool := Qle_bool a x && Qle_bool x b.

(** [x < y] and [x >= y] on numbers. *)
Definition ltb (x y : Q) : bool := negb (Qle_bool y x).
Definition geb (x y : Q) : bool := Qle_bool y x.

(** [max(0, x)] and [min(100, x)]: Python returns the first argument
    unless the second is strictly larger (resp. smaller), which is how
    [Qmax] and [Qmin] choose. *)
Definition max0 (x : Q) : Q := Qmax 0 x.
Definition min100 (x : Q) : Q := Qmin 100 x.

(** [round(x)] with one argument: the nearest integer, a tie going to
    the even neighbour; the result is an [int]. *)
Definition round (x : Q) : Z :=
  let f := Qfloor x in
  match Qcompare (x - inject_Z f)%Q (1 # 2)%Q with
  | Lt => f
  | Gt => f + 1
  | Eq => if Z.even f then f else f + 1
  end.

(** [round(x, 2)]: two decimals, ties to even. *)
Definition round2 (x : Q) : Q := inject_Z (round (x * 100)) / 100.

(** [s in l] for a list of strings. *)
Definition str_in (s : string) (l : list string) : bool :=
  existsb (String.eqb s) l.

(** [str.lower()] on the ASCII letters; bytes of multi-byte characters
    are left alone.  (The one ASCII letter that Python gets from lowering a
    character outside ASCII is [k], from the Kelvin sign; none of the names
    that the code compares with has a [k].) *)
Definition lower_ascii (c : ascii) : ascii :=
  let n := nat_of_ascii c in
  if (Nat.leb 65 n && Nat.leb n 90)%bool then ascii_of_nat (n + 32) else c.

Fixpoint lower (s : string) : string :=
  match s with
  | EmptyString => EmptyString
  | String c r => String (lower_ascii c) (lower r)
  end.

(** [sorted(l, key=key, reverse=True)]: descending by key, elements with
    equal keys staying in their original order.  An element is put in
    front of the first element whose key is not strictly larger. *)
Section Sorted.
Context {A : Type} (key : A -> Q).

Fixpoint insert_desc (x : A) (l : list A) : list A :=
  match l with
  | [] => [x]
  | y :: r => if ltb (key x) (key y) then y :: insert_desc x r
              else x :: y :: r
  end.

Fixpoint sorted_desc (l : list A) : list A :=
  match l with
  | [] => []
  | x :: r => insert_desc x (sorted_desc r)
  end.
End Sorted.

End Py.

(** ** [simple_predictor.py] *)

Module SimplePredictor.

(** One entry of [crops_db]. *)
Record requirement := {
  n_range : Z * Z;
  p_range : Z * Z;
  k_range : Z * Z;
  temp_range : Z * Z;
  rainfall_min : Z;
  ph_range : Q * Q;
  soils : list string;
  seasons : list string
}.

(** [crops_db]; a [dict] keeps its insertion order, which [items()]
    follows. *)
Definition crops_db : list (string * requirement) :=
  [ ("Rice"%string,
     {| n_range := (80, 120); p_range := (40, 60); k_range := (40, 60);
        temp_range := (20, 35); rainfall_min := 1000;
        ph_range := (5.5, 7.0)%Q;
        soils := ["Clayey"; "Loamy"]%string;
        seasons := ["Kharif"; "Monsoon"]%string |});
    ("Wheat"%string,
     {| n_range := (100, 140); p_range := (40, 80); k_range := (40, 80);
        temp_range := (15, 25); rainfall_min := 500;
        ph_range := (6.0, 7.5)%Q;
        soils := ["Loamy"; "Clayey"]%string;
        seasons := ["Rabi"; "Winter"]%string |});
    ("Maize"%string,
     {| n_range := (60, 100); p_range := (30, 60); k_range := (30, 60);
        temp_range := (20, 30); rainfall_min := 600;
        ph_range := (5.5, 7.5)%Q;
        soils := ["Loamy"; "Sandy"; "Black"]%string;
        seasons := ["Kharif"; "Summer"]%string |});
    ("Cotton"%string,
     {| n_range := (80, 120); p_range := (40, 80); k_range := (40, 80);
        temp_range := (21, 35); rainfall_min := 600;
        ph_range := (6.0, 8.0)%Q;
        soils := ["Black"; "Alluvial"]%string;
        seasons := ["Kharif"; "Summer"]%string |});
    ("Millets"%string,
     {| n_range := (40, 80); p_range := (20, 40); k_range := (20, 40);
        temp_range := (25, 35); rainfall_min := 300;
        ph_range := (5.0, 7.5)%Q;
        soils := ["Sandy"; "Red"; "Loamy"]%string;
        seasons := ["Kharif"; "Summer"]%string |});
    ("Pulses"%string,
     {| n_range := (20, 60); p_range := (40, 80); k_range := (20, 60);
        temp_range := (20, 30); rainfall_min := 400;
        ph_range := (6.0, 7.5)%Q;
        soils := ["Loamy"; "Black"; "Red"]%string;
        seasons := ["Rabi"; "Winter"]%string |});
    ("Sugarcane"%string,
     {| n_range := (80, 150); p_range := (40, 80); k_range := (80, 150);
        temp_range := (21, 35); rainfall_min := 1000;
        ph_range := (6.0, 7.5)%Q;
        soils := ["Loamy"; "Black"]%string;
        seasons := ["Whole Year"; "Monsoon"]%string |});
    ("Jute"%string,
     {| n_range := (60, 100); p_range := (30, 60); k_range := (30, 60);
        temp_range := (24, 35); rainfall_min := 1200;
        ph_range := (6.0, 7.5)%Q;
        soils := ["Alluvial"; "Clayey"]%string;
        seasons := ["Kharif"; "Monsoon"]%string |}) ].

(** The arguments of [predict_crops_simple]. *)
Record input := {
  n : Q; p : Q; k : Q;
  temperature : Q; humidity : Q; ph : Q; rainfall : Q;
  soil_type : string; season : string; region : string
}.

Definition in_zrange (r : Z * Z) (x : Q) : bool :=
  Py.between (inject_Z (fst r)) x (inject_Z (snd r)).

(** [sum(range) / 2] *)
Definition zmid (r : Z * Z) : Q := inject_Z (fst r + snd r) / 2.
Definition qmid (r : Q * Q) : Q := (fst r + snd r) / 2.

(** The points of the separate rules of the loop body. *)
Definition n_points (req : requirement) (i : input) : Z :=
  if in_zrange (n_range req) (n i) then 15 else 0.
Definition p_points (req : requirement) (i : input) : Z :=
  if in_zrange (p_range req) (p i) then 12 else 0.
Definition k_points (req : requirement) (i : input) : Z :=
  if in_zrange (k_range req) (k i) then 13 else 0.
Definition temp_points (req : requirement) (i : input) : Z :=
  if in_zrange (temp_range req) (temperature i) then 20
  else if Py.ltb (Qabs (temperature i - zmid (temp_range req))) 5 then 10
  else 0.
Definition rain_points (req : requirement) (i : input) : Z :=
  if Py.geb (rainfall i) (inject_Z (rainfall_min req)) then 15
  else if Py.geb (rainfall i) (inject_Z (rainfall_min req) * 0.7) then 8
  else 0.
Definition ph_points (req : requirement) (i : input) : Z :=
  if Py.between (fst (ph_range req)) (ph i) (snd (ph_range req)) then 10
  else if Py.ltb (Qabs (ph i - qmid (ph_range req))) 0.5 then 5
  else 0.
Definition soil_points (req : requirement) (i : input) : Z :=
  if Py.str_in (soil_type i) (soils req) then 10 else 0.
Definition season_points (req : requirement) (i : input) : Z :=
  if Py.str_in (season i) (seasons req) then 5 else 0.

(** [score] at the end of the loop body, before [min(100, score)]. *)
Definition raw_score (req : requirement) (i : input) : Z :=
  n_points req i + p_points req i + k_points req i + temp_points req i
  + rain_points req i + ph_points req i + soil_points req i
  + season_points req i.

(** [scores[crop] = min(100, score)] *)
Definition score (req : requirement) (i : input) : Z :=
  Z.min 100 (raw_score req i).

(** The dict [scores], in insertion order. *)
Definition scores (i : input) : list (string * Z) :=
  map (fun cr => (fst cr, score (snd cr) i)) crops_db.

(** An entry of the returned list. *)
Record prediction := { name : string; confidence : Z }.

(** [sorted(scores.items(), key=lambda x: x[1], reverse=True)[:3]] *)
Definition sorted_crops (i : input) : list (string * Z) :=
  firstn 3 (Py.sorted_desc (fun x => inject_Z (snd x)) (scores i)).

(** [round(conf, 2)] of an [int] is that [int]. *)
Definition predict_crops_simple (i : input) : list prediction :=
  map (fun x => {| name := fst x; confidence := snd x |}) (sorted_crops i).

End SimplePredictor.

(** ** [modules/weather.py] *)

Module Weather.

(** What the code reads of a weather response: [weather['main']['temp']]
    and [weather['main']['humidity']].  A status-200 body is taken to carry
    both numbers. *)
Record weather_data := { main_temp : Q; main_humidity : Q }.

(** [ClimateRiskEngine]: the API key ([None] and the empty string are the
    falsy keys) and the weather service, which the code reaches through
    [requests.get].  The service maps a key and a city to the JSON body
    of a status-200 response; [None] stands for any other status and for
    a raised exception, which the code treats alike. *)
Record ClimateRiskEngine := {
  api_key : option string;
  service : string -> string -> option weather_data
}.

(** [if not self.api_key: return None], then the request. *)
Definition get_weather_data (self : ClimateRiskEngine) (city : string)
  : option weather_data :=
  match api_key self with
  | Some (String c r) => service self (String c r) city
  | _ => None
  end.

(** The dict returned by [calculate_risk_scores]. *)
Record risk_scores := {
  drought_risk : Z;
  flood_risk : Z;
  current_temp : Q;
  current_humidity : Q
}.

Definition drought_score (temp humidity hist_rainfall : Q) : Q :=
  let s := (Py.max0 (temp - 25) * 2 + Py.max0 (100 - humidity) * 0.5)%Q in
  if Py.ltb hist_rainfall 500 then (s + 20)%Q else s.

Definition flood_score (humidity hist_rainfall : Q) : Q :=
  (hist_rainfall / 50 + humidity * 0.3)%Q.

(** The local [weather]: no request is made for a falsy [city] ([None]
    or the empty string). *)
Definition weather (self : ClimateRiskEngine) (city : option string)
  : option weather_data :=
  match city with
  | Some (String c r) => get_weather_data self (String c r)
  | _ => None
  end.

(** The rest of the body, from [weather] on. *)
Definition risk_scores_of (weather : option weather_data)
    (hist_rainfall hist_temp : Q) : risk_scores :=
  let temp := match weather with Some w => main_temp w | None => hist_temp end in
  let humidity := match weather with Some w => main_humidity w | None => 50%Q end in
  {| drought_risk := Z.min 100 (Py.round (drought_score temp humidity hist_rainfall));
     flood_risk := Z.min 100 (Py.round (flood_score humidity hist_rainfall));
     current_temp := temp;
     current_humidity := humidity |}.

(** [calculate_risk_scores(self, city, hist_rainfall, hist_temp)] *)
Definition calculate_risk_scores (self : ClimateRiskEngine)
    (city : option string) (hist_rainfall hist_temp : Q) : risk_scores :=
  risk_scores_of (weather self city) hist_rainfall hist_temp.

(** A prediction as the ranker sees it: the keys it reads and writes, and
    the remaining keys of the dict, which it carries along. *)
Record crop := {
  name : string;
  confidence : Q;
  risk_adjusted_confidence : option Q;
  details : list (string * string)
}.

Definition drought_tolerant : list string := ["millets"; "pulses"; "maize"]%string.
Definition water_intensive : list string := ["rice"; "cotton"]%string.
Definition water_tolerant : list string := ["rice"]%string.
Definition drought_favoring : list string := ["pulses"; "maize"]%string.

(** The adjustment chosen by the branch on [d_risk]. *)
Definition drought_adj (nm : string) : Z :=
  if Py.str_in (Py.lower nm) drought_tolerant then 15
  else if Py.str_in (Py.lower nm) water_intensive then -20
  else 0.

(** The branch on [f_risk] assigns [score_adj] or leaves it. *)
Definition flood_adj (nm : string) (score_adj : Z) : Z :=
  if Py.str_in (Py.lower nm) water_tolerant then 20
  else if Py.str_in (Py.lower nm) drought_favoring then -25
  else score_adj.

(** [score_adj] at the end of the loop body. *)
Definition score_adj (d_risk f_risk : Z) (nm : string) : Z :=
  let a := if 60 <? d_risk then drought_adj nm else 0 in
  if 70 <? f_risk then flood_adj nm a else a.

(** [max(0, min(100, x))] *)
Definition clamp (x : Q) : Q := Py.max0 (Py.min100 x).

(** One iteration of the loop: the dict with its new key. *)
Definition adjust (d_risk f_risk : Z) (c : crop) : crop :=
  {| name := name c;
     confidence := confidence c;
     risk_adjusted_confidence :=
       Some (clamp (confidence c + inject_Z (score_adj d_risk f_risk (name c))));
     details := details c |}.

(** The sort key [x['risk_adjusted_confidence']]; every element of
    [adjusted] has the key when the sort runs. *)
Definition rac (c : crop) : Q :=
  match risk_adjusted_confidence c with Some v => v | None => 0 end.

(** [get_risk_adjusted_crops] on the values: the list of the adjusted
    dicts, sorted. *)
Definition get_risk_adjusted_crops (predictions : list crop)
    (rs : risk_scores) : list crop :=
  Py.sorted_desc rac
    (map (adjust (drought_risk rs) (flood_risk rs)) predictions).

(** The same function on objects.  The dicts in [predictions] are shared
    with the caller: the loop writes the new key into each of them, and
    the list it returns holds these very dicts.  A store gives the dict
    at each address, and a list of predictions is a list of addresses,
    in which an address may occur more than once. *)
Definition store := list crop.

Definition deref (h : store) (a : nat) : option crop := nth_error h a.

Fixpoint write (h : store) (a : nat) (c : crop) : store :=
  match h, a with
  | [], _ => []
  | _ :: r, O => c :: r
  | x :: r, S a' => x :: write r a' c
  end.

(** The [for] loop; [adjusted] ends up with the addresses of
    [predictions], in the same order. *)
Fixpoint adjust_all (d_risk f_risk : Z) (h : store) (predictions : list nat)
  : store :=
  match predictions with
  | [] => h
  | a :: r =>
      match deref h a with
      | Some c => adjust_all d_risk f_risk (write h a (adjust d_risk f_risk c)) r
      | None => adjust_all d_risk f_risk h r
      end
  end.

(** The sort key of the dict at an address. *)
Definition rac_at (h : store) (a : nat) : Q :=
  match deref h a with Some c => rac c | None => 0 end.

(** The store after the call and the returned list. *)
Definition get_risk_adjusted_crops_in (h : store) (predictions : list nat)
    (rs : risk_scores) : store * list nat :=
  let h' := adjust_all (drought_risk rs) (flood_risk rs) h predictions in
  (h', Py.sorted_desc (rac_at h') predictions).

End Weather.

(** ** [app.py]: the POST branch of [predictcrop]

    The body of the [try] block from the form values on.  What raises
    in Python is [None] here; the handler catches [Exception] at large, so
    the exceptions need not be told apart.  The session, the database and
    the templates are left out: they are assumed not to fail. *)

Module App.
Import Weather.

(** The entries of the model bundle that the request reads: the
    classifier, as the function from a feature row to its probability
    row, and the classes of the four label encoders. *)
Record bundle := {
  model : list Q -> list Q;
  le_soil : list string;
  le_season : list string;
  le_region : list string;
  le_crop : list string
}.

Definition bind {A B : Type} (x : option A) (f : A -> option B) : option B :=
  match x with Some a => f a | None => None end.

Notation "x <- e ;; k" := (bind e (fun x => k))
  (at level 61, e at next level, right associativity).

(** [le.transform([label])[0]]: the index of the label in the classes;
    a label that the encoder has not seen raises. *)
Fixpoint transform (classes : list string) (label : string) : option nat :=
  match classes with
  | [] => None
  | c :: r => if String.eqb label c then Some O
              else i <- transform r label ;; Some (S i)
  end.

(** [le.inverse_transform([idx])[0]]; an index without a class raises. *)
Definition inverse_transform (classes : list string) (idx : nat)
  : option string := nth_error classes idx.

(** [np.argsort(a)]: the indices in ascending order of the values.  numpy
    leaves the order of equal values open; here they come in index
    order. *)
Definition argsort (a : list Q) : list nat :=
  Py.sorted_desc (fun i => (- nth i a 0)%Q) (seq 0 (List.length a)).

(** [x[-3:]] *)
Definition last3 {A : Type} (x : list A) : list A :=
  skipn (List.length x - 3) x.

(** [np.argsort(probabilities)[-3:][::-1]] *)
Definition top_3_indices (probabilities : list Q) : list nat :=
  rev (last3 (argsort probabilities)).

(** One iteration of the loop over [top_3_indices]; [crop_details] is the
    lookup of the display details of a crop. *)
Definition top_crop (crop_details : string -> list (string * string))
    (classes : list string) (probabilities : list Q) (idx : nat)
  : option crop :=
  crop_name <- inverse_transform classes idx ;;
  Some {| name := crop_name;
          confidence := Py.round2 (nth idx probabilities 0 * 100)%Q;
          risk_adjusted_confidence := None;
          details := crop_details crop_name |}.

Fixpoint for_each {A B : Type} (f : A -> option B) (l : list A)
  : option (list B) :=
  match l with
  | [] => Some []
  | x :: r => y <- f x ;; ys <- for_each f r ;; Some (y :: ys)
  end.

Definition top_3_crops (crop_details : string -> list (string * string))
    (classes : list string) (probabilities : list Q) : option (list crop) :=
  for_each (top_crop crop_details classes probabilities)
           (top_3_indices probabilities).

(** What the request answers. *)
Inductive response :=
| WarmingUp
    (** the notice that the prediction system is warming up, and a
        redirect *)
| ErrorFlash
    (** [flash(f'Error: ...', 'danger')] of the handler, and a redirect *)
| Results (predictions : list crop) (risk_data : risk_scores).

(** [risk_data]: from the engine when there is one, else the defaults. *)
Definition risk_data_of (risk_engine : option ClimateRiskEngine)
    (location : option string) (form : SimplePredictor.input) : risk_scores :=
  let user_location :=
    match location with
    | Some (String c r) => String c r
    | _ => "Unknown"%string
    end in
  match risk_engine with
  | Some e =>
      calculate_risk_scores e (Some user_location)
        (SimplePredictor.rainfall form) (SimplePredictor.temperature form)
  | None =>
      {| drought_risk := 20; flood_risk := 20;
         current_temp := SimplePredictor.temperature form;
         current_humidity := SimplePredictor.humidity form |}
  end.

(** The feature row; an unseen soil, season or region label raises. *)
Definition features (b : bundle) (form : SimplePredictor.input)
  : option (list Q) :=
  soil_encoded <- transform (le_soil b) (SimplePredictor.soil_type form) ;;
  season_encoded <- transform (le_season b) (SimplePredictor.season form) ;;
  region_encoded <- transform (le_region b) (SimplePredictor.region form) ;;
  Some
    [SimplePredictor.n form; SimplePredictor.p form; SimplePredictor.k form;
     SimplePredictor.temperature form; SimplePredictor.humidity form;
     SimplePredictor.ph form; SimplePredictor.rainfall form;
     inject_Z (Z.of_nat soil_encoded); inject_Z (Z.of_nat season_encoded);
     inject_Z (Z.of_nat region_encoded)].

(** The [try] block after the bundle is found.  [adjusted_crops] is a
    copy of [top_3_crops]; its first three entries are read when the
    prediction is saved. *)
Definition predict (b : bundle) (risk_engine : option ClimateRiskEngine)
    (location : option string)
    (crop_details : string -> list (string * string))
    (form : SimplePredictor.input) : option response :=
  feats <- features b form ;;
  let probabilities := model b feats in
  top_3 <- top_3_crops crop_details (le_crop b) probabilities ;;
  let adjusted_crops := top_3 in
  match adjusted_crops with
  | _ :: _ :: _ :: _ => Some (Results adjusted_crops
                                (risk_data_of risk_engine location form))
  | _ => None
  end.

(** [bundle] is [None] for the empty bundle that a failed load leaves. *)
Definition predictcrop (bundle : option bundle)
    (risk_engine : option ClimateRiskEngine) (location : option string)
    (crop_details : string -> list (string * string))
    (form : SimplePredictor.input) : response :=
  match bundle with
  | None => WarmingUp
  | Some b =>
      match predict b risk_engine location crop_details form with
      | Some r => r
      | None => ErrorFlash
      end
  end.

End App.

(** ** [app.py]: the lazily filled globals *)

Module AppGlobals.
Import Weather App.

(** [_model_bundle] and [_risk_engine].  [_model_bundle] is [None] before
    the first load; after it, it holds the loaded bundle or the empty dict
    of a failed load, which is [Some None] here. *)
Record globals := {
  _model_bundle : option (option bundle);
  _risk_engine : option ClimateRiskEngine
}.

(** What the environment would answer at the time of a request:
    [joblib.load] of the model file and the construction of the risk
    engine, [None] when they raise. *)
Record environment := {
  load : option bundle;
  make_engine : option ClimateRiskEngine
}.

(** [get_model_bundle()]: the new global and the returned bundle. *)
Definition get_model_bundle (env : environment) (g : globals)
  : globals * option bundle :=
  match _model_bundle g with
  | None =>
      ({| _model_bundle := Some (load env); _risk_engine := _risk_engine g |},
       load env)
  | Some b => (g, b)
  end.

(** [get_risk_engine()]: a failed construction leaves the global [None]. *)
Definition get_risk_engine (env : environment) (g : globals)
  : globals * option ClimateRiskEngine :=
  match _risk_engine g with
  | None =>
      ({| _model_bundle := _model_bundle g; _risk_engine := make_engine env |},
       make_engine env)
  | Some e => (g, Some e)
  end.

(** The POST branch of [predictcrop] with its getters.  The risk engine is
    asked for after the loop over the top three indices, so only when
    nothing has raised before. *)
Definition predictcrop_post (env : environment) (g : globals)
    (location : option string)
    (crop_details : string -> list (string * string))
    (form : SimplePredictor.input) : globals * response :=
  let (g1, bundle) := get_model_bundle env g in
  match bundle with
  | None => (g1, WarmingUp)
  | Some b =>
      match features b form with
      | None => (g1, ErrorFlash)
      | Some feats =>
          match top_3_crops crop_details (le_crop b) (model b feats) with
          | None => (g1, ErrorFlash)
          | Some _ =>
              let (g2, risk_engine) := get_risk_engine env g1 in
              (g2, predictcrop (Some b) risk_engine location crop_details form)
          end
      end
  end.

End AppGlobals.

(** ** [app.py]: [get_image_filename] and the crop details *)

Module CropDetails.

(** [s.endswith(suffix)]: some tail of [s] is the suffix. *)
Fixpoint endswith (s suffix : string) : bool :=
  String.eqb s suffix
  || match s with
     | EmptyString => false
     | String _ r => endswith r suffix
     end.

(** [get_image_filename(image_name)]; [folder] is the listing of the
    images folder, [None] when the folder does not exist.  Names are
    lowered by [Py.lower], that is on their ASCII letters. *)
Definition get_image_filename (folder : option (list string))
    (image_name : string) : string :=
  match folder with
  | None => "default.jpg"%string
  | Some files =>
      let base_name := Py.lower image_name in
      let base_name :=
        if endswith base_name ".jpg" then base_name
        else (base_name ++ ".jpg")%string in
      match find (fun f => String.eqb (Py.lower f) base_name) files with
      | Some f => f
      | None => "default.jpg"%string
      end
  end.

(** A dict with string keys and values, in insertion order. *)
Definition dict := list (string * string).

(** [d.get(key, default)] *)
Fixpoint get (d : dict) (key default : string) : string :=
  match d with
  | [] => default
  | (k, v) :: r => if String.eqb k key then v else get r key default
  end.

(** [key in d] *)
Definition has (d : dict) (key : string) : bool :=
  existsb (fun kv => String.eqb (fst kv) key) d.

(** [if key not in d: d[key] = value] *)
Definition setdefault (d : dict) (key value : string) : dict :=
  if has d key then d else d ++ [(key, value)].

(** The table [crop_details]. *)
Definition crop_details : list (string * dict) :=
  [
  ("Rice", [("planting", "June-July"); ("fertilizer", "Urea, DAP, MOP");
     ("irrigation", "Flooded field method"); ("yield", "4-6 tons/ha");
     ("image", "rice.jpg")]);
  ("Wheat", [("planting", "October-November"); ("fertilizer", "NPK 20:20:20");
     ("irrigation", "Sprinkler/Furrow"); ("yield", "4-5 tons/ha");
     ("image", "wheat.jpg")]);
  ("Maize", [("planting", "June-July or Feb-March"); ("fertilizer", "Urea, DAP");
     ("irrigation", "Drip/Sprinkler"); ("yield", "6-8 tons/ha");
     ("image", "maize.jpg")]);
  ("Millets", [("planting", "June-August"); ("fertilizer", "NPK 10:10:10");
     ("irrigation", "Moderate"); ("yield", "2-4 tons/ha");
     ("image", "millets.jpg")]);
  ("Pulses", [("planting", "July-August"); ("fertilizer", "DAP, Urea");
     ("irrigation", "Low"); ("yield", "1-2 tons/ha");
     ("image", "pulses.jpg")]);
  ("Cotton", [("planting", "April-May"); ("fertilizer", "NPK 20:20:20");
     ("irrigation", "Moderate"); ("yield", "2-3 tons/ha");
     ("image", "cotton.jpg")]);
  ("Coffee", [("planting", "June-August"); ("fertilizer", "NPK 10:5:20");
     ("irrigation", "Drip/Sprinkler"); ("yield", "1-2 tons/ha");
     ("image", "coffee.jpg")]);
  ("Jute", [("planting", "March-May"); ("fertilizer", "N:P:K 2:1:1");
     ("irrigation", "Rainfed/Flooded"); ("yield", "2-3 tons/ha");
     ("image", "jute.jpg")]);
  ("Tea", [("planting", "June-September"); ("fertilizer", "Ammonium Sulphate");
     ("irrigation", "Sprinkler"); ("yield", "2-3 tons/ha");
     ("image", "tea.jpg")]);
  ("Sugarcane", [("planting", "Feb-March"); ("fertilizer", "250:125:125 NPK kg/ha");
     ("irrigation", "Furrow"); ("yield", "80-100 tons/ha");
     ("image", "sugarcane.jpg")]);
  ("Tobacco", [("planting", "August-October"); ("fertilizer", "NPK 50:50:50");
     ("irrigation", "Furrow"); ("yield", "2-3 tons/ha");
     ("image", "tobacco.jpg")]);
  ("Rubber", [("planting", "June-July"); ("fertilizer", "NPK 10:10:4");
     ("irrigation", "Rainfed"); ("yield", "1-2 tons/ha");
     ("image", "rubber.jpg")]);
  ("Coconut", [("planting", "May-June"); ("fertilizer", "NPK 500:320:1200g/palm");
     ("irrigation", "Drip/Basin"); ("yield", "80-100 nuts/palm");
     ("image", "coconut.jpg")]);
  ("Banana", [("planting", "Feb-April"); ("fertilizer", "NPK 200:50:200g/plant");
     ("irrigation", "Drip"); ("yield", "30-40 tons/ha");
     ("image", "banana.jpg")]);
  ("Grapes", [("planting", "Oct-Jan"); ("fertilizer", "FYM + NPK");
     ("irrigation", "Drip"); ("yield", "20-30 tons/ha");
     ("image", "grapes.jpg")]);
  ("Apple", [("planting", "Jan-Feb"); ("fertilizer", "FYM + NPK");
     ("irrigation", "Drip"); ("yield", "10-15 tons/ha");
     ("image", "apple.jpg")]);
  ("Mango", [("planting", "July-Aug"); ("fertilizer", "FYM + 1kg NPK/tree");
     ("irrigation", "Basin"); ("yield", "8-10 tons/ha");
     ("image", "mango.jpg")]);
  ("Muskmelon", [("planting", "Feb-March"); ("fertilizer", "NPK 100:50:50");
     ("irrigation", "Drip"); ("yield", "15-20 tons/ha");
     ("image", "muskmelon.jpg")]);
  ("Watermelon", [("planting", "Jan-March"); ("fertilizer", "NPK 100:50:50");
     ("irrigation", "Drip"); ("yield", "20-25 tons/ha");
     ("image", "watermelon.jpg")]);
  ("Orange", [("planting", "July-Aug"); ("fertilizer", "NPK 600:200:300g/tree");
     ("irrigation", "Drip/Basin"); ("yield", "10-12 tons/ha");
     ("image", "orange.jpg")]);
  ("Papaya", [("planting", "Feb-March or June-July"); ("fertilizer", "NPK 200:200:250g/plant");
     ("irrigation", "Drip"); ("yield", "30-40 tons/ha");
     ("image", "papaya.jpg")]);
  ("Pomegranate", [("planting", "Feb-March"); ("fertilizer", "FYM + NPK");
     ("irrigation", "Drip"); ("yield", "10-12 tons/ha");
     ("image", "pomegranate.jpg")]);
  ("Lentil", [("planting", "Oct-Nov"); ("fertilizer", "DAP + Sulphur");
     ("irrigation", "Rainfed/Light"); ("yield", "1-1.5 tons/ha");
     ("image", "lentil.jpg")]);
  ("Blackgram", [("planting", "Feb-March or June-July"); ("fertilizer", "DAP");
     ("irrigation", "Rainfed"); ("yield", "0.8-1 tons/ha");
     ("image", "blackgram.jpg")]);
  ("Mungbean", [("planting", "Feb-March or June-July"); ("fertilizer", "DAP");
     ("irrigation", "Rainfed"); ("yield", "0.8-1 tons/ha");
     ("image", "mungbean.jpg")]);
  ("Mothbeans", [("planting", "June-July"); ("fertilizer", "FYM");
     ("irrigation", "Rainfed"); ("yield", "0.4-0.6 tons/ha");
     ("image", "mothbeans.jpg")]);
  ("Pigeonpeas", [("planting", "June-July"); ("fertilizer", "DAP + FYM");
     ("irrigation", "Rainfed"); ("yield", "1.5-2 tons/ha");
     ("image", "pigeonpeas.jpg")]);
  ("Kidneybeans", [("planting", "May-June"); ("fertilizer", "NPK 40:60:40");
     ("irrigation", "Rainfed"); ("yield", "1.0-1.5 tons/ha");
     ("image", "kidneybeans.jpg")]);
  ("Chickpea", [("planting", "Oct-Nov"); ("fertilizer", "DAP");
     ("irrigation", "Sprinkler"); ("yield", "1.5-2 tons/ha");
     ("image", "chickpea.jpg")])
  ]%string.

(** [crop_details.get(crop_name, {'image': 'default.jpg'})] *)
Fixpoint local_crop (table : list (string * dict)) (crop_name : string) : dict :=
  match table with
  | [] => [("image", "default.jpg")]%string
  | (k, v) :: r => if String.eqb k crop_name then v else local_crop r crop_name
  end.

(** The crop collection: [None] when there is no connection, else
    [find_one] by name. *)
Definition collection := option (string -> option dict).

(** [mongo_crop], and its truth value: a document that is found and is not
    empty. *)
Definition mongo_crop (crop_col : collection) (crop_name : string)
  : option dict :=
  match crop_col with
  | Some find_one =>
      match find_one crop_name with
      | Some (kv :: r) => Some (kv :: r)
      | _ => None
      end
  | None => None
  end.

(** The dict literal that both branches of the request build from a
    source dict. *)
Definition details_of (folder : option (list string)) (source : dict) : dict :=
  [("planting", get source "planting" "N/A");
   ("fertilizer", get source "fertilizer" "N/A");
   ("irrigation", get source "irrigation" "N/A");
   ("yield", get source "yield" "N/A");
   ("image", get_image_filename folder (get source "image" "default.jpg"))]%string.

(** The details of a fresh prediction (POST). *)
Definition details_post (folder : option (list string)) (crop_col : collection)
    (crop_name : string) : dict :=
  match mongo_crop crop_col crop_name with
  | Some m => details_of folder m
  | None => details_of folder (local_crop crop_details crop_name)
  end.

(** The details of a saved prediction (GET): the table entry itself unless
    the collection has the crop, then the missing keys filled in. *)
Definition details_get (folder : option (list string)) (crop_col : collection)
    (c_name : string) : dict :=
  let details := local_crop crop_details c_name in
  let details :=
    match mongo_crop crop_col c_name with
    | Some m => details_of folder m
    | None => details
    end in
  let details := setdefault details "planting" "N/A" in
  let details := setdefault details "fertilizer" "N/A" in
  let details := setdefault details "yield" "N/A" in
  let details := setdefault details "irrigation" "N/A" in
  setdefault details "image" (get_image_filename folder "default.jpg").

End CropDetails.

(** ** [app.py]: the saved prediction *)

Module Saved.
Import Weather CropDetails.

(** The columns of [Prediction] that the routes read back; the two risk
    columns may be null. *)
Record Prediction := {
  crop1 : string; crop2 : string; crop3 : string;
  confidence1 : Q; confidence2 : Q; confidence3 : Q;
  drought_risk : option Q;
  flood_risk : option Q
}.

(** [new_pred] of the POST branch; reading [adjusted_crops[2]] of a
    shorter list raises. *)
Definition new_pred (adjusted_crops : list crop) (risk_data : risk_scores)
  : option Prediction :=
  match adjusted_crops with
  | c1 :: c2 :: c3 :: _ =>
      Some {| crop1 := name c1; crop2 := name c2; crop3 := name c3;
              confidence1 := confidence c1; confidence2 := confidence c2;
              confidence3 := confidence c3;
              drought_risk := Some (inject_Z (Weather.drought_risk risk_data));
              flood_risk := Some (inject_Z (Weather.flood_risk risk_data)) |}
  | _ => None
  end.

(** [saved_predictions] of the GET branch, for [last_pred]. *)
Definition saved_predictions (folder : option (list string))
    (crop_col : collection) (last_pred : Prediction) : list crop :=
  map (fun nc =>
         {| name := fst nc; confidence := snd nc;
            risk_adjusted_confidence := None;
            details := details_get folder crop_col (fst nc) |})
      [(crop1 last_pred, confidence1 last_pred);
       (crop2 last_pred, confidence2 last_pred);
       (crop3 last_pred, confidence3 last_pred)].

(** [saved_risk_data] *)
Definition saved_risk_data (last_pred : Prediction) : option Q * option Q :=
  (drought_risk last_pred, flood_risk last_pred).

End Saved.

(** ** [app.py]: the figures of [dashboard] *)

Module Dashboard.
Import Saved.

Record stats := {
  total_recommendations : Z;
  avg_confidence : Z;
  risk_level : string;
  risk_class : string
}.

(** Truth value of a string. *)
Definition nonempty (s : string) : bool :=
  match s with EmptyString => false | _ => true end.

(** [x or 0] *)
Definition or0 (x : option Q) : Q :=
  match x with
  | Some v => if Qeq_bool v 0 then 0 else v
  | None => 0
  end.

(** The loop that counts the recommended crops. *)
Definition count_recommendations (user_preds : list Prediction) : Z :=
  fold_left
    (fun total p =>
       let total := if nonempty (crop1 p) then total + 1 else total in
       let total := if nonempty (crop2 p) then total + 1 else total in
       if nonempty (crop3 p) then total + 1 else total)
    user_preds 0.

(** [sum([p.confidence1 for p in user_preds])] *)
Definition total_conf (user_preds : list Prediction) : Q :=
  fold_left Qplus (map confidence1 user_preds) 0%Q.

(** The level and its CSS class for the risk of the latest prediction. *)
Definition level_of (current_risk : Q) : string * string :=
  if Py.ltb current_risk 30 then ("LOW", "text-success")%string
  else if Py.ltb current_risk 70 then ("MODERATE", "text-warning")%string
  else ("HIGH", "text-danger")%string.

Definition dashboard_stats (user_preds : list Prediction) : stats :=
  match user_preds with
  | [] =>
      {| total_recommendations := 0; avg_confidence := 0;
         risk_level := "N/A"; risk_class := "text-muted" |}
  | first :: rest =>
      let latest_pred := last rest first in
      let current_risk :=
        Qmax (or0 (drought_risk latest_pred)) (or0 (flood_risk latest_pred)) in
      {| total_recommendations := count_recommendations user_preds;
         avg_confidence :=
           Py.round (total_conf user_preds
                     / inject_Z (Z.of_nat (List.length user_preds)));
         risk_level := fst (level_of current_risk);
         risk_class := snd (level_of current_risk) |}
  end.

End Dashboard.

(** ** [modules/chatbot.py]: [AgriBot.get_answer] *)

Module Chatbot.

(** [sub in s] on strings. *)
Fixpoint contains (sub s : string) : bool :=
  String.prefix sub s
  || match s with
     | EmptyString => false
     | String _ r => contains sub r
     end.

(** What [get_answer] reaches of a bot.  [rag] is the context search,
    there when [pc_api_key] is set; the search gives the context text and
    the empty string when it fails.  [groq] is there when [groq_key] is set
    and the library is installed, [gemini] when [gemini_key] is set.  A
    provider maps the prompt to [None] when the call raises; Groq gives
    the message content, which may be [None]; Ollama gives [None] also for
    a status other than 200, and else the [response] field of the body,
    which is [None] when the field is missing. *)
Record AgriBot := {
  rag : option (string -> string);
  groq : option (string -> option (option string));
  gemini : option (string -> option string);
  ollama : string -> option (option string)
}.

(** The f-string [prompt]. *)
Definition prompt_head : string :=
  "
        You are a highly detailed and friendly agricultural expert. 
        Your goal is to provide a comprehensive, multi-paragraph explanation to help the farmer. 
        Don't just give a short answer; explain the 'why' and give specific actionable tips.
        
        Background Information: ".
Definition prompt_middle : string :=
  "
        
        User's Question: ".
Definition prompt_tail : string :=
  "
        
        Detailed, casual, and encouraging answer:
        ".

Definition prompt (context query : string) : string :=
  (prompt_head ++ context ++ prompt_middle ++ query ++ prompt_tail)%string.

Definition rice_answer : string :=
  "Rice is a fascinating crop, but it’s quite demanding! It thrives in clayey loam soil which holds water well, as it typically requires over 1000mm of rainfall or consistent irrigation.

To get the best harvest, I recommend an NPK ratio of 80:40:40. You should apply half of the Nitrogen and all of the Phosphorus and Potassium during the transplanting stage. The remaining Nitrogen should be applied in two splits: once at the tillering stage and again at the panicle initiation stage. This ensures the plant has energy exactly when it needs to grow those grains!".

Definition wheat_answer : string :=
  "Wheat is a 'Rabi' crop, meaning it loves the cooler months of October and November. It needs well-drained, loamy soil to prevent root rot.

For a strong yield, a balanced NPK ratio of 120:60:40 is standard. Actionable tip: ensure the first 'Crown Root Initiation' irrigation happens exactly 21 days after sowing—this is the most critical time for the plant's development. Also, keep an eye out for 'Yellow Rust' disease if the weather gets too humid!".

Definition cotton_answer : string :=
  "Cotton is often called 'White Gold,' but it needs a lot of sun and careful water management. It grows best in deep black soils (Regur soil) which have high water-retaining capacity.

I highly recommend using drip irrigation; it can save up to 40% more water compared to traditional methods. For nutrients, aim for an NPK of 100:50:50. Keep a close watch for the Pink Bollworm pest during the flowering stage—using pheromone traps early on can save your entire crop without needing heavy chemicals!".

Definition pest_answer : string :=
  "Managing pests is all about being proactive rather than reactive! Instead of jumping straight to harsh chemicals, try Integrated Pest Management (IPM).

First, use Neem-based sprays or light traps to monitor what bugs are in your field. Biological controls like Trichogramma wasps can naturally hunt down harmful pests. If you must use chemicals, only spray the affected patches to keep your soil health and helpful insects (like bees) safe!".

Definition npk_answer : string :=
  "NPK is the foundation of plant health, and understanding it is key!
- **Nitrogen (N)**: This is for the 'Green.' It helps with leaf growth and lush foliage.
- **Phosphorus (P)**: This is for the 'Roots' and 'Fruits.' It helps the plant establish a strong base and produce healthy seeds or grains.
- **Potassium (K)**: This is for 'Overall Health.' It helps the plant fight off diseases and survive through tough weather like droughts.

Always test your soil before adding more—sometimes your soil already has plenty of one element, and adding more is just a waste of money!".

Definition default_answer : string :=
  "I'd love to give you a detailed breakdown! Could you tell me a bit more? For example, what is your soil type, and which specific crop or pest are you most concerned about right now?".

(** The answers by keyword, the last resort.  The query is lowered by
    [Py.lower], that is on its ASCII letters. *)
Definition manual_answer (query : string) : string :=
  let q_lower := Py.lower query in
  if contains "rice" q_lower then rice_answer
  else if contains "wheat" q_lower then wheat_answer
  else if contains "cotton" q_lower then cotton_answer
  else if contains "pest" q_lower then pest_answer
  else if contains "npk" q_lower then npk_answer
  else default_answer.

(** What the Groq step leaves: an answer to return, or nothing. *)
Definition try_groq (self : AgriBot) (p : string) : option (option string) :=
  match groq self with
  | Some call => call p
  | None => None
  end.

Definition try_gemini (self : AgriBot) (p : string) : option string :=
  match gemini self with
  | Some call => call p
  | None => None
  end.

(** [get_answer(self, query)]; the result is a string or [None]. *)
Definition get_answer (self : AgriBot) (query : string) : option string :=
  let context :=
    match rag self with
    | Some search_context => search_context query
    | None => EmptyString
    end in
  let p := prompt context query in
  match try_groq self p with
  | Some content => content
  | None =>
      match try_gemini self p with
      | Some text => Some text
      | None =>
          match ollama self p with
          | Some response => response
          | None => Some (manual_answer query)
          end
      end
  end.

End Chatbot.

(** ** The score formulas on binary64 floats

    The formulas of [calculate_risk_scores] and the partial-credit
    threshold of the scorer as Python evaluates them, on IEEE 754 doubles;
    they serve to compare the rational reading with the floats at the
    inputs of the examples. *)

Module Binary64.
Import Floats.
Local Open Scope float_scope.

(** [max(0, x)] *)
Definition max0_b64 (x : float) : float := if PrimFloat.ltb 0 x then x else 0.

Definition drought_score_b64 (temp humidity hist_rainfall : float) : float :=
  let s := max0_b64 (temp - 25) * 2 + max0_b64 (100 - humidity) * 0.5 in
  if PrimFloat.ltb hist_rainfall 500 then s + 20 else s.

#[warnings="-inexact-float"]
Definition flood_score_b64 (humidity hist_rainfall : float) : float :=
  hist_rainfall / 50 + humidity * 0.3.

(** [req['rainfall_min'] * 0.7]; the literals [0.3] and [0.7] are read as
    the nearest doubles, as Python reads them. *)
#[warnings="-inexact-float"]
Definition rainfall_partial (rainfall_min : float) : float :=
  rainfall_min * 0.7.

End Binary64.

(** ** Vocabulary of the statements *)

Module Props.
Import Weather.

(** Descending order of the keys. *)
Definition desc {A : Type} (key : A -> Q) (a b : A) : Prop :=
  (key b <= key a)%Q.

(** The requirement profile of a crop holds of an input in full. *)
Definition full_match (req : SimplePredictor.requirement)
    (i : SimplePredictor.input) : Prop :=
  let inside (r : Z * Z) (x : Q) :=
    (inject_Z (fst r) <= x /\ x <= inject_Z (snd r))%Q in
  inside (SimplePredictor.n_range req) (SimplePredictor.n i)
  /\ inside (SimplePredictor.p_range req) (SimplePredictor.p i)
  /\ inside (SimplePredictor.k_range req) (SimplePredictor.k i)
  /\ inside (SimplePredictor.temp_range req) (SimplePredictor.temperature i)
  /\ (fst (SimplePredictor.ph_range req) <= SimplePredictor.ph i
      /\ SimplePredictor.ph i <= snd (SimplePredictor.ph_range req))%Q
  /\ (inject_Z (SimplePredictor.rainfall_min req) <= SimplePredictor.rainfall i)%Q
  /\ In (SimplePredictor.soil_type i) (SimplePredictor.soils req)
  /\ In (SimplePredictor.season i) (SimplePredictor.seasons req).

(** The pairs behind the entries that the scorer returns. *)
Definition items (l : list SimplePredictor.prediction) : list (string * Z) :=
  map (fun e => (SimplePredictor.name e, SimplePredictor.confidence e)) l.

(** A drought rule, resp. a flood rule, names the crop. *)
Definition drought_rule (nm : string) : bool :=
  Py.str_in (Py.lower nm) drought_tolerant
  || Py.str_in (Py.lower nm) water_intensive.
Definition flood_rule (nm : string) : bool :=
  Py.str_in (Py.lower nm) water_tolerant
  || Py.str_in (Py.lower nm) drought_favoring.

(** What the flood rules give on their own. *)
Definition flood_rule_adj (nm : string) : Z :=
  if Py.str_in (Py.lower nm) water_tolerant then 20 else -25.

(** Ranked: in descending order of confidence. *)
Definition ranked (l : list crop) : Prop :=
  Sorted (fun a b => (confidence b <= confidence a)%Q) l.

(** The sort key of what an address holds. *)
Definition rac_opt (o : option crop) : Q :=
  match o with Some c => rac c | None => 0 end.

(** The dict that [predictcrop] builds for a class index. *)
Definition entry (crop_details : string -> list (string * string))
    (classes : list string) (probabilities : list Q) (idx : nat) : crop :=
  {| name := nth idx classes EmptyString;
     confidence := Py.round2 (nth idx probabilities 0 * 100)%Q;
     risk_adjusted_confidence := None;
     details := crop_details (nth idx classes EmptyString) |}.

End Props.

(** ** Sample data *)

Module Samples.
Import Weather.

(** Nitrogen 80, phosphorus and potassium 40, 27 degrees, pH 6.5,
    1300 mm of rain, loamy soil in the Kharif season. *)
Definition sample : SimplePredictor.input :=
  {| SimplePredictor.n := 80; SimplePredictor.p := 40;
     SimplePredictor.k := 40; SimplePredictor.temperature := 27;
     SimplePredictor.humidity := 50; SimplePredictor.ph := 6.5;
     SimplePredictor.rainfall := 1300;
     SimplePredictor.soil_type := "Loamy";
     SimplePredictor.season := "Kharif";
     SimplePredictor.region := "South" |}.

(** The catalog entry of rice. *)
Definition rice : SimplePredictor.requirement :=
  {| SimplePredictor.n_range := (80, 120);
     SimplePredictor.p_range := (40, 60);
     SimplePredictor.k_range := (40, 60);
     SimplePredictor.temp_range := (20, 35);
     SimplePredictor.rainfall_min := 1000;
     SimplePredictor.ph_range := (5.5, 7.0)%Q;
     SimplePredictor.soils := ["Clayey"; "Loamy"]%string;
     SimplePredictor.seasons := ["Kharif"; "Monsoon"]%string |}.

(** An engine without an API key. *)
Definition offline : ClimateRiskEngine :=
  {| api_key := None; service := fun _ _ => None |}.

(** A prediction before and after the ranker. *)
Definition mk (nm : string) (c : Q) : crop :=
  {| name := nm; confidence := c; risk_adjusted_confidence := None;
     details := [] |}.
Definition with_rac (nm : string) (c v : Q) : crop :=
  {| name := nm; confidence := c; risk_adjusted_confidence := Some v;
     details := [] |}.

Definition risks (d f : Z) : risk_scores :=
  {| drought_risk := d; flood_risk := f; current_temp := 30;
     current_humidity := 50 |}.

(** A bundle of four crop classes whose classifier answers with three
    probabilities. *)
Definition short_bundle : App.bundle :=
  {| App.model := fun _ => [0.1; 0.7; 0.2]%Q;
     App.le_soil := ["Alluvial"; "Black"; "Clayey"; "Loamy"; "Red"; "Sandy"]%string;
     App.le_season := ["Kharif"; "Rabi"; "Zaid"]%string;
     App.le_region := ["Central"; "East"; "North"; "South"; "West"]%string;
     App.le_crop := ["Maize"; "Millets"; "Rice"; "Wheat"]%string |}.

Definition no_details (crop_name : string) : list (string * string) := [].

End Samples.

(** ** Vocabulary and sample data of the further properties *)

Module Terms.
Import Weather.

(** Two scorer inputs that differ at most in humidity and region. *)
Definition same_but_humidity_region (i j : SimplePredictor.input) : Prop :=
  SimplePredictor.n i = SimplePredictor.n j
  /\ SimplePredictor.p i = SimplePredictor.p j
  /\ SimplePredictor.k i = SimplePredictor.k j
  /\ SimplePredictor.temperature i = SimplePredictor.temperature j
  /\ SimplePredictor.ph i = SimplePredictor.ph j
  /\ SimplePredictor.rainfall i = SimplePredictor.rainfall j
  /\ SimplePredictor.soil_type i = SimplePredictor.soil_type j
  /\ SimplePredictor.season i = SimplePredictor.season j.

(** Two scorer inputs that differ at most in rainfall, humidity and
    region. *)
Definition same_but_rainfall (i j : SimplePredictor.input) : Prop :=
  SimplePredictor.n i = SimplePredictor.n j
  /\ SimplePredictor.p i = SimplePredictor.p j
  /\ SimplePredictor.k i = SimplePredictor.k j
  /\ SimplePredictor.temperature i = SimplePredictor.temperature j
  /\ SimplePredictor.ph i = SimplePredictor.ph j
  /\ SimplePredictor.soil_type i = SimplePredictor.soil_type j
  /\ SimplePredictor.season i = SimplePredictor.season j.

(** The keys of a prediction that the ranker is given. *)
Definition given (c : crop) : string * Q * list (string * string) :=
  (name c, confidence c, details c).

(** The names that some rule of the ranker mentions. *)
Definition ruled : list string :=
  ["millets"; "pulses"; "maize"; "rice"; "cotton"]%string.

(** The name that [get_image_filename] compares the files with. *)
Definition base_name (image_name : string) : string :=
  if CropDetails.endswith (Py.lower image_name) ".jpg" then Py.lower image_name
  else (Py.lower image_name ++ ".jpg")%string.

(** The four texts of the crop details. *)
Definition texts : list string :=
  ["planting"; "fertilizer"; "irrigation"; "yield"]%string.

(** The prompt that the providers of the chatbot get for a query. *)
Definition prompt_of (self : Chatbot.AgriBot) (query : string) : string :=
  Chatbot.prompt
    match Chatbot.rag self with
    | Some search_context => search_context query
    | None => EmptyString
    end query.

(** No provider answers: each one is absent or fails on the prompt. *)
Definition silent (self : Chatbot.AgriBot) (query : string) : Prop :=
  Chatbot.try_groq self (prompt_of self query) = None
  /\ Chatbot.try_gemini self (prompt_of self query) = None
  /\ Chatbot.ollama self (prompt_of self query) = None.

(** The six answers of the last resort. *)
Definition canned : list string :=
  [Chatbot.rice_answer; Chatbot.wheat_answer; Chatbot.cotton_answer;
   Chatbot.pest_answer; Chatbot.npk_answer; Chatbot.default_answer].

End Terms.

Module Cases.
Import Weather Samples.

(** The globals of a fresh process, and an environment in which nothing
    loads and one in which everything does. *)
Definition fresh : AppGlobals.globals :=
  {| AppGlobals._model_bundle := None; AppGlobals._risk_engine := None |}.
Definition down : AppGlobals.environment :=
  {| AppGlobals.load := None; AppGlobals.make_engine := None |}.
Definition up : AppGlobals.environment :=
  {| AppGlobals.load := Some short_bundle;
     AppGlobals.make_engine := Some offline |}.

(** Two saved predictions, the second with an empty third crop and no
    drought risk. *)
Definition two_predictions : list Saved.Prediction :=
  [ {| Saved.crop1 := "Rice"; Saved.crop2 := "Maize"; Saved.crop3 := "Jute";
       Saved.confidence1 := 91.5; Saved.confidence2 := 5.5;
       Saved.confidence3 := 3;
       Saved.drought_risk := Some 55%Q; Saved.flood_risk := Some 21%Q |};
    {| Saved.crop1 := "Wheat"; Saved.crop2 := "Pulses";
       Saved.crop3 := EmptyString;
       Saved.confidence1 := 64.25; Saved.confidence2 := 30;
       Saved.confidence3 := 0;
       Saved.drought_risk := None; Saved.flood_risk := Some 80%Q |} ]%string.

(** A bot without keys and without a local Ollama, and one whose local
    Ollama answers with a body that has no [response] field. *)
Definition bare : Chatbot.AgriBot :=
  {| Chatbot.rag := None; Chatbot.groq := None; Chatbot.gemini := None;
     Chatbot.ollama := fun _ => None |}.
Definition mute_ollama : Chatbot.AgriBot :=
  {| Chatbot.rag := None; Chatbot.groq := None; Chatbot.gemini := None;
     Chatbot.ollama := fun _ => Some None |}.

End Cases.

(** * Properties *)

(** ** The built-ins *)

Module PyFacts.

Lemma ltb_lt (x y : Q) : Py.ltb x y = true <-> (x < y)%Q.
Proof.
  unfold Py.ltb. rewrite negb_true_iff.
  split; intro H.
  - apply Qnot_le_lt. intro L. apply Qle_bool_iff in L. congruence.
  - destruct (Qle_bool y x) eqn:E; trivial.
    apply Qle_bool_iff in E. exfalso. apply (Qlt_not_le _ _ H E).
Qed.

Lemma ltb_ge (x y : Q) : Py.ltb x y = false <-> (y <= x)%Q.
Proof.
  unfold Py.ltb. rewrite negb_false_iff. apply Qle_bool_iff.
Qed.

Lemma geb_ge (x y : Q) : Py.geb x y = true <-> (y <= x)%Q.
Proof. apply Qle_bool_iff. Qed.

Lemma between_iff (a x b : Q) :
  Py.between a x b = true <-> (a <= x /\ x <= b)%Q.
Proof.
  unfold Py.between. rewrite andb_true_iff, !Qle_bool_iff. tauto.
Qed.

Lemma str_in_In (s : string) (l : list string) :
  Py.str_in s l = true <-> In s l.
Proof.
  unfold Py.str_in. rewrite existsb_exists. split.
  - intros [x [Hx E]]. apply String.eqb_eq in E. now subst.
  - intro H. exists s. split; trivial. apply String.eqb_refl.
Qed.

Lemma max0_nonneg (x : Q) : (0 <= Py.max0 x)%Q.
Proof. apply Q.le_max_l. Qed.

Lemma max0_ge (x : Q) : (x <= Py.max0 x)%Q.
Proof. apply Q.le_max_r. Qed.

(** [round] never goes below an integer that its argument reaches. *)
Lemma round_ge (m : Z) (x : Q) : (inject_Z m <= x)%Q -> m <= Py.round x.
Proof.
  intro H. apply Qfloor_resp_le in H. rewrite Qfloor_Z in H.
  unfold Py.round.
  destruct (Qcompare _ _); [destruct (Z.even _) | |]; lia.
Qed.

(** ... and never above one that bounds its argument. *)
Lemma round_le (m : Z) (x : Q) : (x <= inject_Z m)%Q -> Py.round x <= m.
Proof.
  intro H. pose proof (Qfloor_le x) as Hf.
  assert (Hfm : Qfloor x <= m).
  { apply Qfloor_resp_le in H. now rewrite Qfloor_Z in H. }
  assert (Hhalf : ((1 # 2) <= x - inject_Z (Qfloor x))%Q -> Qfloor x + 1 <= m).
  { intro Hh. destruct (Z.eq_dec (Qfloor x) m) as [E|]; [|lia].
    rewrite E in Hh. lra. }
  unfold Py.round.
  destruct (Qcompare _ _) eqn:E.
  - apply Qeq_alt in E. destruct (Z.even _); [lia|]. apply Hhalf. lra.
  - lia.
  - apply Qgt_alt in E. apply Hhalf. lra.
Qed.

Lemma round_inject_Z (m : Z) : Py.round (inject_Z m) = m.
Proof.
  apply Z.le_antisymm; [apply round_le | apply round_ge]; apply Qle_refl.
Qed.

End PyFacts.

(** ** Sorting *)

Module SortFacts.
Import PyFacts Props.

Section Facts.
Context {A : Type} (key : A -> Q).

Lemma insert_desc_perm (x : A) (l : list A) :
  Permutation (Py.insert_desc key x l) (x :: l).
Proof.
  induction l as [|y r IH]; simpl; [reflexivity|].
  destruct (Py.ltb _ _); [|reflexivity].
  rewrite IH. apply perm_swap.
Qed.

Lemma sorted_desc_perm (l : list A) : Permutation (Py.sorted_desc key l) l.
Proof.
  induction l as [|x r IH]; simpl; [constructor|].
  rewrite insert_desc_perm. now constructor.
Qed.

Lemma sorted_desc_In (x : A) (l : list A) :
  In x (Py.sorted_desc key l) <-> In x l.
Proof.
  split; apply Permutation_in;
    [|symmetry]; apply sorted_desc_perm.
Qed.

Lemma sorted_desc_length (l : list A) :
  List.length (Py.sorted_desc key l) = List.length l.
Proof. apply Permutation_length, sorted_desc_perm. Qed.

Lemma insert_desc_hd (x : A) (l : list A) :
  HdRel (desc key) x l -> Py.insert_desc key x l = x :: l.
Proof.
  destruct l as [|y r]; simpl; trivial.
  intro H. inversion H as [|? ? Hxy]; subst.
  apply ltb_ge in Hxy. now rewrite Hxy.
Qed.

Lemma insert_desc_sorted (x : A) (l : list A) :
  Sorted (desc key) l -> Sorted (desc key) (Py.insert_desc key x l).
Proof.
  induction l as [|y r IH]; simpl; intro S.
  - repeat constructor.
  - destruct (Py.ltb (key x) (key y)) eqn:E.
    + inversion S as [|? ? Sr Hr]; subst.
      constructor; [now apply IH|].
      apply ltb_lt in E.
      destruct r as [|z r']; simpl.
      * constructor. now apply Qlt_le_weak.
      * destruct (Py.ltb (key x) (key z)).
        -- inversion Hr; subst. now constructor.
        -- constructor. now apply Qlt_le_weak.
    + apply ltb_ge in E. constructor; trivial. now constructor.
Qed.

(** The result of [sorted(..., reverse=True)] is in descending order. *)
Lemma sorted_desc_sorted (l : list A) : Sorted (desc key) (Py.sorted_desc key l).
Proof.
  induction l as [|x r IH]; simpl; [constructor|].
  now apply insert_desc_sorted.
Qed.

Lemma desc_trans : Relations_1.Transitive (desc key).
Proof. intros a b c H1 H2. unfold Props.desc in *. now apply Qle_trans with (key b). Qed.

Lemma sorted_desc_strongly (l : list A) :
  StronglySorted (desc key) (Py.sorted_desc key l).
Proof. apply Sorted_StronglySorted; [apply desc_trans | apply sorted_desc_sorted]. Qed.

(** Sorting a list that is already in descending order changes nothing:
    the sort is stable, so equal keys are not swapped. *)
Lemma sorted_desc_id (l : list A) : Sorted (desc key) l -> Py.sorted_desc key l = l.
Proof.
  induction 1 as [|x r S IH H]; simpl; trivial.
  rewrite IH. now apply insert_desc_hd.
Qed.

(** An element passes all strictly larger keys. *)
Lemma insert_desc_app (x : A) (f r : list A) :
  Forall (fun y => (key x < key y)%Q) f ->
  Py.insert_desc key x (f ++ r) = f ++ Py.insert_desc key x r.
Proof.
  induction 1 as [|y f Hy _ IH]; simpl; trivial.
  apply ltb_lt in Hy. now rewrite Hy, IH.
Qed.

(** Stability: the elements of one key keep their original order. *)
Lemma sorted_desc_stable (q : Q) (l : list A) :
  filter (fun a => Qeq_bool (key a) q) (Py.sorted_desc key l)
  = filter (fun a => Qeq_bool (key a) q) l.
Proof.
  induction l as [|x r IH]; simpl; trivial.
  rewrite <- IH. clear IH.
  induction (Py.sorted_desc key r) as [|y s IHs]; simpl; trivial.
  destruct (Py.ltb (key x) (key y)) eqn:E; simpl; trivial.
  rewrite IHs. apply ltb_lt in E.
  destruct (Qeq_bool (key x) q) eqn:Ex, (Qeq_bool (key y) q) eqn:Ey; trivial.
  apply Qeq_bool_iff in Ex, Ey. rewrite Ex, Ey in E.
  now apply Qlt_irrefl in E.
Qed.

(** When no key exceeds [m], the elements that reach [m] come first, in
    their original order. *)
Lemma sorted_desc_top (m : Q) (l : list A) :
  Forall (fun y => (key y <= m)%Q) l ->
  Py.sorted_desc key l
  = filter (fun y => Py.geb (key y) m) l
    ++ Py.sorted_desc key (filter (fun y => Py.ltb (key y) m) l).
Proof.
  induction 1 as [|x r Hx Hr IH]; simpl; trivial.
  unfold Py.ltb at 1, Py.geb at 1.
  destruct (Qle_bool m (key x)) eqn:E; simpl.
  - rewrite IH at 1. apply insert_desc_hd.
    apply Qle_bool_iff in E.
    assert (Hall : Forall (fun y => (key y <= m)%Q)
              (filter (fun y => Py.geb (key y) m) r
               ++ Py.sorted_desc key (filter (fun y => Py.ltb (key y) m) r))).
    { rewrite <- IH. rewrite Forall_forall in *. intros y Hy.
      apply Hr. exact (proj1 (sorted_desc_In y r) Hy). }
    destruct (_ ++ _) as [|y t]; constructor.
    inversion Hall; subst. unfold Props.desc. now apply Qle_trans with m.
  - rewrite IH at 1. apply insert_desc_app.
    apply Forall_forall. intros y Hy. apply filter_In in Hy.
    destruct Hy as [_ Hy]. apply geb_ge in Hy.
    apply Qlt_le_trans with m; trivial.
    apply ltb_lt. unfold Py.ltb. now rewrite E.
Qed.

(** So an element that reaches the bound is among the first [k]
    whenever at most [k] elements reach it. *)
Lemma sorted_desc_top_firstn (m : Q) (k : nat) (x : A) (l : list A) :
  Forall (fun y => (key y <= m)%Q) l ->
  (List.length (filter (fun y => Py.geb (key y) m) l) <= k)%nat ->
  In x l -> (m <= key x)%Q ->
  In x (firstn k (Py.sorted_desc key l)).
Proof.
  intros Hall Hlen Hin Hx.
  rewrite (sorted_desc_top m l Hall), firstn_app.
  apply in_or_app. left.
  rewrite firstn_all2 by exact Hlen.
  apply filter_In. split; trivial. now apply geb_ge.
Qed.

End Facts.
End SortFacts.

(** ** The rule-based scorer *)

Module SimplePredictorFacts.
Import PyFacts SortFacts SimplePredictor Props Samples.

Ltac points := unfold n_points, p_points, k_points, temp_points, rain_points,
                 ph_points, soil_points, season_points.

Ltac split_ifs :=
  repeat match goal with |- context [if ?b then _ else _] => destruct b end.

(** Each rule gives between nothing and its share of the budget. *)
Lemma rule_points (req : requirement) (i : input) :
  0 <= n_points req i <= 15 /\ 0 <= p_points req i <= 12
  /\ 0 <= k_points req i <= 13 /\ 0 <= temp_points req i <= 20
  /\ 0 <= rain_points req i <= 15 /\ 0 <= ph_points req i <= 10
  /\ 0 <= soil_points req i <= 10 /\ 0 <= season_points req i <= 5.
Proof. points. repeat split; split_ifs; lia. Qed.

(** The point budget: no crop collects more than 100 points. *)
Lemma raw_score_bounds (req : requirement) (i : input) :
  0 <= raw_score req i <= 100.
Proof. unfold raw_score. pose proof (rule_points req i). lia. Qed.

Lemma score_bounds (req : requirement) (i : input) : 0 <= score req i <= 100.
Proof. unfold score. pose proof (raw_score_bounds req i). lia. Qed.

Lemma full_match_score (req : requirement) (i : input) :
  full_match req i -> score req i = 100.
Proof.
  intros (Hn & Hp & Hk & Ht & Hph & Hr & Hso & Hse).
  unfold score, raw_score. points. unfold in_zrange.
  apply between_iff in Hn, Hp, Hk, Ht, Hph.
  apply geb_ge in Hr. apply str_in_In in Hso, Hse.
  now rewrite Hn, Hp, Hk, Ht, Hph, Hr, Hso, Hse.
Qed.

(** 100 points are reached only with the soil and the season admitted. *)
Lemma perfect_soil_season (req : requirement) (i : input) :
  100 <= score req i ->
  Py.str_in (soil_type i) (soils req) && Py.str_in (season i) (seasons req) = true.
Proof.
  unfold score, raw_score. pose proof (rule_points req i) as H.
  revert H. unfold soil_points, season_points.
  destruct (Py.str_in (soil_type i) _), (Py.str_in (season i) _); trivial; lia.
Qed.

Lemma filter_map_length {A B : Type} (g : A -> B) (P : B -> bool)
    (Q : A -> bool) (l : list A) :
  (forall x, P (g x) = true -> Q x = true) ->
  (List.length (filter P (map g l)) <= List.length (filter Q l))%nat.
Proof.
  intro H. induction l as [|x r IH]; simpl; trivial.
  destruct (P (g x)) eqn:E.
  - rewrite (H x E). simpl. lia.
  - destruct (Q x); simpl; lia.
Qed.

Lemma length_filter_count {A : Type} (f : A -> bool) (l : list A) :
  List.length (filter f l)
  = fold_right (fun x acc => ((if f x then 1 else 0) + acc)%nat) 0%nat l.
Proof.
  induction l as [|x r IH]; simpl; trivial.
  destruct (f x); simpl; now rewrite IH.
Qed.

Ltac split_label s :=
  repeat match goal with
    | |- context [String.eqb s ?c] => destruct (String.eqb_spec s c) as [->|]
    end.

(** No soil and season are admitted by more than three crops. *)
Lemma soil_season_at_most_3 (so se : string) :
  (List.length (filter (fun cr => Py.str_in so (soils (snd cr))
                                  && Py.str_in se (seasons (snd cr))) crops_db)
   <= 3)%nat.
Proof.
  rewrite length_filter_count.
  unfold crops_db, Py.str_in.
  cbn [fold_right snd soils seasons existsb].
  split_label so; split_label se; cbn; lia.
Qed.

Lemma perfect_at_most_3 (i : input) :
  (List.length (filter (fun x => Py.geb (inject_Z (snd x)) 100) (scores i)) <= 3)%nat.
Proof.
  unfold scores.
  eapply Nat.le_trans; [|apply (soil_season_at_most_3 (soil_type i) (season i))].
  apply filter_map_length. intros [c req] H. simpl in *.
  apply perfect_soil_season. apply geb_ge in H.
  change 100%Q with (inject_Z 100) in H. now rewrite <- Zle_Qle in H.
Qed.

Lemma scores_le_100 (i : input) :
  Forall (fun x => (inject_Z (snd x) <= 100)%Q) (scores i).
Proof.
  unfold scores. apply Forall_forall. intros x Hx.
  apply in_map_iff in Hx. destruct Hx as [[c req] [<- _]]. simpl.
  change 100%Q with (inject_Z 100). rewrite <- Zle_Qle. apply score_bounds.
Qed.

(** C1.  When an input satisfies the full requirement profile of a crop of
    the catalog (N, P, K, temperature and pH inside the inclusive ranges,
    rainfall at least the minimum, soil type and season admitted), the
    scorer gives that crop exactly 100: it is the value of [scores] for the
    crop, and the returned list has the crop with confidence 100. *)
Theorem full_match_scores_100 (crop : string) (req : requirement) (i : input) :
  In (crop, req) crops_db ->
  full_match req i ->
  score req i = 100
  /\ In (crop, 100) (scores i)
  /\ In {| name := crop; confidence := 100 |} (predict_crops_simple i).
Proof.
  intros Hin Hm. pose proof (full_match_score req i Hm) as Hs.
  assert (Hsc : In (crop, 100) (scores i)).
  { unfold scores. apply in_map_iff. exists (crop, req). simpl. now rewrite Hs. }
  split; [exact Hs|]. split; [exact Hsc|].
  unfold predict_crops_simple, sorted_crops.
  apply in_map_iff. exists (crop, 100). split; trivial.
  apply sorted_desc_top_firstn with (m := 100%Q); trivial.
  - apply scores_le_100.
  - apply perfect_at_most_3.
  - simpl. apply Qle_refl.
Qed.

Lemma full_match_scores_100_witness :
  full_match rice sample
  /\ In {| name := "Rice"; confidence := 100 |} (predict_crops_simple sample).
Proof.
  assert (M : full_match rice sample).
  { unfold full_match, rice, sample; cbn -[Qle In].
    repeat split; try (unfold Qle; simpl; lia); simpl; auto. }
  split; [exact M|].
  refine (proj2 (proj2 (full_match_scores_100 "Rice" rice sample _ M))).
  left. reflexivity.
Defined.

Lemma items_predict (i : input) :
  items (predict_crops_simple i) = sorted_crops i.
Proof.
  unfold items, predict_crops_simple. rewrite map_map.
  transitivity (map (fun x => x) (sorted_crops i)); [|apply map_id].
  apply map_ext. now intros [c s].
Qed.

Lemma scores_length (i : input) : List.length (scores i) = 8%nat.
Proof. unfold scores. now rewrite length_map. Qed.

Lemma StronglySorted_app_le {A : Type} (R : A -> A -> Prop) (l r : list A) :
  StronglySorted R (l ++ r) -> forall a b, In a l -> In b r -> R a b.
Proof.
  induction l as [|x l IH]; simpl; intros S a b Ha Hb; [easy|].
  apply StronglySorted_inv in S. destruct S as [S F].
  destruct Ha as [<-|Ha].
  - rewrite Forall_forall in F. apply F, in_or_app. now right.
  - now apply IH.
Qed.

Lemma StronglySorted_map {A B : Type} (f : A -> B) (R : A -> A -> Prop)
    (R' : B -> B -> Prop) (l : list A) :
  (forall a b, R a b -> R' (f a) (f b)) ->
  StronglySorted R l -> StronglySorted R' (map f l).
Proof.
  intros H. induction 1 as [|x l S IH F]; simpl; constructor; trivial.
  rewrite Forall_forall in *. intros y Hy. apply in_map_iff in Hy.
  destruct Hy as [z [<- Hz]]. auto.
Qed.

(** C2, amended.  The scorer scores all eight crops of the catalog and
    returns the three best of them itself: the returned entries followed by
    the five crops left out are the catalog scores rearranged, in
    descending order of score, crops of one score in catalog order; every
    crop left out scores no more than every crop returned. *)
Theorem predict_crops_simple_top3 (i : input) :
  map fst (scores i) = map fst crops_db
  /\ exists rest : list (string * Z),
    Permutation (items (predict_crops_simple i) ++ rest) (scores i)
    /\ StronglySorted (fun a b => snd b <= snd a)
         (items (predict_crops_simple i) ++ rest)
    /\ (forall s, filter (fun x => snd x =? s)
                    (items (predict_crops_simple i) ++ rest)
                  = filter (fun x => snd x =? s) (scores i))
    /\ List.length (predict_crops_simple i) = 3%nat
    /\ List.length rest = 5%nat
    /\ (forall e x, In e (predict_crops_simple i) -> In x rest ->
                    snd x <= confidence e).
Proof.
  split; [unfold scores; now rewrite map_map|].
  set (key := fun x : string * Z => inject_Z (snd x)).
  pose proof (items_predict i) as Hout. unfold sorted_crops in Hout.
  fold key in Hout.
  pose proof (sorted_desc_perm key (scores i)) as HP.
  pose proof (sorted_desc_strongly key (scores i)) as HS.
  pose proof (fun q => sorted_desc_stable key q (scores i)) as HT.
  pose proof (sorted_desc_length key (scores i)) as HL.
  rewrite scores_length in HL.
  revert Hout HP HS HT HL.
  generalize (Py.sorted_desc key (scores i)) as L.
  generalize (scores i) as sc.
  generalize (predict_crops_simple i) as out.
  intros out sc L Hout HP HS HT HL.
  assert (S : StronglySorted (fun a b => snd b <= snd a) L).
  { rewrite <- (map_id L). revert HS. apply StronglySorted_map.
    intros a b. unfold desc, key. now rewrite <- Zle_Qle. }
  exists (skipn 3 L). rewrite Hout, firstn_skipn.
  split; [exact HP|]. split; [exact S|]. split.
  { intro s.
    assert (E : forall l : list (string * Z),
               filter (fun x => snd x =? s) l
               = filter (fun a => Qeq_bool (key a) (inject_Z s)) l).
    { intro l. apply filter_ext. intros [c z]. unfold key. simpl.
      destruct (Z.eqb_spec z s) as [->|N].
      - symmetry. apply Qeq_bool_iff. reflexivity.
      - destruct (Qeq_bool _ _) eqn:E; trivial.
        apply Qeq_bool_iff in E. rewrite inject_Z_injective in E. contradiction. }
    rewrite !E. apply HT. }
  split.
  { apply (f_equal (@List.length _)) in Hout. unfold items in Hout.
    rewrite length_map, length_firstn, HL in Hout. exact Hout. }
  split.
  { now rewrite length_skipn, HL. }
  intros e x He Hx.
  rewrite <- (firstn_skipn 3 L) in S.
  refine (StronglySorted_app_le _ _ _ S (name e, confidence e) x _ Hx).
  rewrite <- Hout. unfold items. apply in_map_iff. exists e. now split.
Qed.

(** C2 as stated fails: on the sample input Jute is in the catalog and not
    in the output. *)
Lemma not_every_crop_returned :
  ~ (forall c, In c (map fst crops_db) ->
               In c (map name (predict_crops_simple sample))).
Proof.
  intro H. specialize (H "Jute"%string).
  vm_compute in H.
  destruct H as [H|[H|[H|H]]]; try discriminate H; auto 10.
Qed.

End SimplePredictorFacts.

(** ** Floats against rationals *)

Module Binary64Facts.
Import Floats.
Local Open Scope float_scope.

(** At the inputs of the examples the doubles are the integers that the
    rational formulas give, so [round] sees the same number. *)
Lemma risk_examples_binary64 :
  Binary64.drought_score_b64 30 50 300 = 55
  /\ Binary64.flood_score_b64 50 300 = 21
  /\ Binary64.flood_score_b64 50 (-5000) = -85.
Proof. repeat split; vm_compute; reflexivity. Qed.

(** The partial-credit thresholds of the catalog are exact in doubles. *)
Lemma rainfall_partial_binary64 :
  map Binary64.rainfall_partial [1000; 500; 600; 300; 400; 1200]
  = [700; 350; 420; 210; 280; 840].
Proof. vm_compute. reflexivity. Qed.

End Binary64Facts.

(** ** The climate risk estimator *)

Module WeatherFacts.
Import PyFacts SortFacts Weather Props Samples.

(** *** The risk estimator *)

Lemma weather_no_city (self : ClimateRiskEngine) :
  weather self None = None /\ weather self (Some EmptyString) = None.
Proof. now split. Qed.

Lemma weather_no_key (self : ClimateRiskEngine) (city : option string) :
  api_key self = None \/ api_key self = Some EmptyString ->
  weather self city = None.
Proof.
  unfold weather, get_weather_data.
  intros [-> | ->]; now destruct city as [[|c r]|].
Qed.

(** The cases without a live sample: no city, no API key, or a request
    that fails. *)
Lemma weather_None_iff (self : ClimateRiskEngine) (city : option string) :
  weather self city = None <->
  (city = None \/ city = Some EmptyString
   \/ api_key self = None \/ api_key self = Some EmptyString
   \/ exists key c, api_key self = Some key /\ city = Some c
                    /\ service self key c = None).
Proof.
  unfold weather, get_weather_data. split.
  - destruct city as [[|c r]|]; auto.
    destruct (api_key self) as [[|k r']|]; auto.
    intro H. do 4 right. eauto.
  - intros [->|[->|[H|[H|(key & c & H1 & -> & H3)]]]]; trivial.
    + rewrite H. now destruct city as [[|c r]|].
    + rewrite H. now destruct city as [[|c r]|].
    + rewrite H1. destruct c as [|c r]; trivial. now destruct key.
Qed.

Lemma drought_score_nonneg (temp humidity hist_rainfall : Q) :
  (0 <= drought_score temp humidity hist_rainfall)%Q.
Proof.
  unfold drought_score.
  pose proof (max0_nonneg (temp - 25)).
  pose proof (max0_nonneg (100 - humidity)).
  destruct (Py.ltb _ _); lra.
Qed.

(** The fallback humidity gives 25 points whatever the rest is. *)
Lemma drought_score_fallback (temp hist_rainfall : Q) :
  (drought_score temp 50 hist_rainfall
   == Py.max0 (temp - 25) * 2 + 25
      + (if Py.ltb hist_rainfall 500 then 20 else 0))%Q.
Proof.
  unfold drought_score.
  assert (E : (Py.max0 (100 - 50) == 50)%Q).
  { unfold Py.max0. apply Q.max_r. unfold Qle. simpl. lia. }
  destruct (Py.ltb _ _); rewrite E; lra.
Qed.

Lemma drought_risk_range (w : option weather_data) (hist_rainfall hist_temp : Q) :
  0 <= drought_risk (risk_scores_of w hist_rainfall hist_temp) <= 100.
Proof.
  unfold risk_scores_of; cbn [drought_risk].
  split; [|apply Z.le_min_l].
  apply Z.min_glb; [lia|]. apply round_ge, drought_score_nonneg.
Qed.

Lemma flood_risk_le_100 (w : option weather_data) (hist_rainfall hist_temp : Q) :
  flood_risk (risk_scores_of w hist_rainfall hist_temp) <= 100.
Proof. unfold risk_scores_of; cbn [flood_risk]. apply Z.le_min_l. Qed.

(** The flood score is not negative as long as the rainfall and the
    humidity are not. *)
Lemma flood_risk_nonneg (w : option weather_data) (hist_rainfall hist_temp : Q) :
  (0 <= hist_rainfall)%Q ->
  (forall s, w = Some s -> (0 <= main_humidity s)%Q) ->
  0 <= flood_risk (risk_scores_of w hist_rainfall hist_temp).
Proof.
  intros Hr Hw. unfold risk_scores_of; cbn [flood_risk].
  apply Z.min_glb; [lia|]. apply round_ge. unfold flood_score.
  assert (Hh : (0 <= match w with Some s => main_humidity s | None => 50 end)%Q).
  { destruct w as [s|]; [now apply Hw | lra]. }
  revert Hh. generalize (match w with Some s => main_humidity s | None => 50%Q end).
  intros h Hh. change (inject_Z 0) with 0%Q.
  assert (0 <= hist_rainfall / 50)%Q by (apply Qle_shift_div_l; lra).
  lra.
Qed.

(** C3 fails for the flood risk, which has no lower clamp: without a live
    sample, a historical rainfall of -5000 mm gives
    [round(-5000/50 + 50*0.3) = -85].  (The drought risk is within 0 and
    100 always, and the flood risk is at most 100 always, by
    [drought_risk_range] and [flood_risk_le_100].) *)
Theorem flood_risk_negative :
  flood_risk (calculate_risk_scores offline (Some "Unknown"%string) (-5000) 30)
  = -85.
Proof. reflexivity. Qed.

(** C4.  Without a live weather sample, a historical rainfall of 300 mm and
    a historical temperature of 30 degrees give drought risk 55 and flood
    risk 21, on the fallback humidity 50. *)
Theorem fallback_example (self : ClimateRiskEngine) (city : option string) :
  weather self city = None ->
  calculate_risk_scores self city 300 30
  = {| drought_risk := 55; flood_risk := 21;
       current_temp := 30; current_humidity := 50 |}.
Proof. unfold calculate_risk_scores. now intros ->. Qed.

Lemma fallback_example_witness :
  weather offline (Some "Unknown"%string) = None
  /\ calculate_risk_scores offline (Some "Unknown"%string) 300 30
     = {| drought_risk := 55; flood_risk := 21;
          current_temp := 30; current_humidity := 50 |}.
Proof.
  split; [reflexivity|].
  apply (fallback_example offline (Some "Unknown"%string)). reflexivity.
Defined.

(** C9.  Without a live weather sample the humidity is the fallback 50,
    which brings 25 points to the drought score, so that the drought risk
    is at least 25 whatever the historical temperature and rainfall. *)
Theorem fallback_drought_at_least_25 (self : ClimateRiskEngine)
    (city : option string) (hist_rainfall hist_temp : Q) :
  weather self city = None ->
  current_humidity (calculate_risk_scores self city hist_rainfall hist_temp) = 50%Q
  /\ (Py.max0 (100 - 50) * 0.5 == 25)%Q
  /\ (25 <= drought_score hist_temp 50 hist_rainfall)%Q
  /\ 25 <= drought_risk (calculate_risk_scores self city hist_rainfall hist_temp).
Proof.
  unfold calculate_risk_scores. intros ->.
  split; [reflexivity|]. split; [reflexivity|].
  assert (H : (25 <= drought_score hist_temp 50 hist_rainfall)%Q).
  { rewrite drought_score_fallback.
    pose proof (max0_nonneg (hist_temp - 25)).
    destruct (Py.ltb _ _); lra. }
  split; [exact H|].
  unfold risk_scores_of; cbn [drought_risk].
  apply Z.min_glb; [lia|]. now apply round_ge.
Qed.

Lemma fallback_drought_at_least_25_witness :
  weather offline (Some "Unknown"%string) = None
  /\ 25 <= drought_risk
             (calculate_risk_scores offline (Some "Unknown"%string) 2000 (-40)).
Proof.
  split; [reflexivity|].
  apply (fallback_drought_at_least_25 offline (Some "Unknown"%string) 2000 (-40)).
  reflexivity.
Defined.

End WeatherFacts.

(** ** The risk-adjusted ranker *)

Module RankerFacts.
Import PyFacts SortFacts Weather Props Samples.

Lemma clamp_range (x : Q) : (0 <= clamp x <= 100)%Q.
Proof.
  unfold clamp, Py.max0, Py.min100. split.
  - apply Q.le_max_l.
  - apply Q.max_lub; [lra | apply Q.le_min_l].
Qed.

Lemma clamp_id (x : Q) : (0 <= x <= 100)%Q -> (clamp x == x)%Q.
Proof.
  intros [H0 H1]. unfold clamp, Py.max0, Py.min100.
  rewrite (Q.min_r _ _ H1). now apply Q.max_r.
Qed.

Lemma clamp_mono (x y : Q) : (x <= y)%Q -> (clamp x <= clamp y)%Q.
Proof.
  intro H. unfold clamp, Py.max0, Py.min100.
  apply Q.max_le_compat_l, Q.min_le_compat_l, H.
Qed.

(** C5.  With the drought risk above 60 and the flood risk above 70, a crop
    named by a drought rule and by a flood rule gets the adjustment of the
    flood rule: not the one of the drought rule, and not the sum of the
    two. *)
Theorem flood_rule_overwrites (d_risk f_risk : Z) (c : crop) :
  60 < d_risk -> 70 < f_risk ->
  drought_rule (name c) = true -> flood_rule (name c) = true ->
  score_adj d_risk f_risk (name c) = flood_rule_adj (name c)
  /\ score_adj d_risk f_risk (name c) <> drought_adj (name c)
  /\ score_adj d_risk f_risk (name c)
     <> drought_adj (name c) + flood_rule_adj (name c)
  /\ risk_adjusted_confidence (adjust d_risk f_risk c)
     = Some (clamp (confidence c + inject_Z (flood_rule_adj (name c)))).
Proof.
  intros Hd Hf Hdr Hfr.
  assert (E : score_adj d_risk f_risk (name c) = flood_rule_adj (name c)).
  { unfold score_adj, flood_adj, flood_rule_adj.
    apply Z.ltb_lt in Hd, Hf. rewrite Hd, Hf.
    unfold flood_rule in Hfr.
    destruct (Py.str_in (Py.lower (name c)) water_tolerant); trivial.
    cbn [orb] in Hfr. now rewrite Hfr. }
  unfold adjust; cbn [risk_adjusted_confidence]. rewrite E.
  split; [reflexivity|].
  revert Hdr Hfr. unfold drought_rule, flood_rule, flood_rule_adj, drought_adj.
  unfold drought_tolerant, water_intensive, water_tolerant, drought_favoring,
    Py.str_in. cbn [existsb].
  generalize (Py.lower (name c)) as s. intro s.
  repeat match goal with
    | |- context [String.eqb s ?l] => destruct (String.eqb_spec s l) as [->|]
    end; cbn; intros; try discriminate; repeat split; lia.
Qed.

Lemma flood_rule_overwrites_witness :
  score_adj 70 80 "Maize" = -25
  /\ risk_adjusted_confidence (adjust 70 80 (mk "Maize" 60)) = Some 35%Q.
Proof.
  pose proof (flood_rule_overwrites 70 80 (mk "Maize" 60)
                ltac:(lia) ltac:(lia) eq_refl eq_refl) as (H1 & _ & _ & H2).
  split; [exact H1 | exact H2].
Defined.

(** *** Examples and re-application *)

(** C6.  With drought risk 70 and flood risk 0, Millets at confidence 60
    goes to 75 and Rice at confidence 80 to 60 (so that Millets comes
    first); a penalty is clamped at 0: confidence 5 with the adjustment -25
    gives 0, whichever crop and risks lead to that adjustment, as does the
    penalty of -20 that drought risk 70 brings Cotton. *)
Theorem drought_70_examples :
  get_risk_adjusted_crops [mk "Rice" 80; mk "Millets" 60] (risks 70 0)
  = [with_rac "Millets" 60 75; with_rac "Rice" 80 60]
  /\ get_risk_adjusted_crops [mk "Cotton" 5] (risks 70 0)
     = [with_rac "Cotton" 5 0]
  /\ clamp (5 + inject_Z (-25)) = 0%Q
  /\ forall (d_risk f_risk : Z) (c : crop),
       score_adj d_risk f_risk (name c) = -25 -> confidence c = 5%Q ->
       risk_adjusted_confidence (adjust d_risk f_risk c) = Some 0%Q.
Proof.
  split; [reflexivity|]. split; [reflexivity|]. split; [reflexivity|].
  intros d f c Ha Hc. unfold adjust; cbn [risk_adjusted_confidence].
  now rewrite Ha, Hc.
Qed.

Lemma drought_70_examples_witness :
  score_adj 0 80 "Maize" = -25
  /\ risk_adjusted_confidence (adjust 0 80 (mk "Maize" 5)) = Some 0%Q.
Proof.
  split; [reflexivity|].
  apply (proj2 (proj2 (proj2 drought_70_examples)) 0 80 (mk "Maize" 5));
    reflexivity.
Defined.

(** The adjustment reads [name] and [confidence] and nothing else. *)
Lemma adjust_reads_confidence (d f : Z) (c : crop) (v : option Q) :
  adjust d f {| name := name c; confidence := confidence c;
                risk_adjusted_confidence := v; details := details c |}
  = adjust d f c.
Proof. reflexivity. Qed.

Lemma adjust_idem (d f : Z) (c : crop) : adjust d f (adjust d f c) = adjust d f c.
Proof. reflexivity. Qed.

Lemma map_adjust_fixed (d f : Z) (l : list crop) :
  (forall c, In c l -> exists c0, c = adjust d f c0) ->
  map (adjust d f) l = l.
Proof.
  intro H. rewrite <- (map_id l) at 2. apply map_ext_in.
  intros c Hc. destruct (H c Hc) as [c0 ->]. apply adjust_idem.
Qed.

Lemma ranker_output_adjusted (l : list crop) (rs : risk_scores) (c : crop) :
  In c (get_risk_adjusted_crops l rs) ->
  exists c0, In c0 l /\ c = adjust (drought_risk rs) (flood_risk rs) c0.
Proof.
  unfold get_risk_adjusted_crops. intro H.
  apply (proj1 (sorted_desc_In rac c _)) in H.
  apply in_map_iff in H. destruct H as [c0 [E H]]. eauto.
Qed.

(** *** Calm weather *)

Lemma score_adj_calm (d_risk f_risk : Z) (nm : string) :
  d_risk <= 60 -> f_risk <= 70 -> score_adj d_risk f_risk nm = 0.
Proof.
  intros Hd Hf. unfold score_adj.
  apply Z.ltb_ge in Hd, Hf. now rewrite Hd, Hf.
Qed.

Lemma adjust_calm_sorted (l : list crop) :
  ranked l -> Sorted (desc rac) (map (adjust 0 0) l).
Proof.
  assert (M : forall a b, (confidence b <= confidence a)%Q ->
              desc rac (adjust 0 0 a) (adjust 0 0 b)).
  { intros a b H. unfold desc, rac, adjust; cbn [risk_adjusted_confidence].
    apply clamp_mono. unfold score_adj; simpl. lra. }
  induction 1 as [|x r S IH H]; simpl; constructor; trivial.
  destruct H as [|y r' H]; simpl; constructor. now apply M.
Qed.

(** C10, amended.  With the drought risk at most 60 and the flood risk at
    most 70, the adjusted confidence of every crop is its confidence
    clamped to the range from 0 to 100, hence the confidence itself when
    that lies in the range; the output has the crops of the input in
    descending order of the adjusted confidence, which is the order of the
    input when the input is ranked, in descending order of confidence. *)
Theorem calm_risks_keep_confidence (l : list crop) (rs : risk_scores) :
  drought_risk rs <= 60 -> flood_risk rs <= 70 ->
  (forall c, In c (get_risk_adjusted_crops l rs) ->
     exists v, risk_adjusted_confidence c = Some v
               /\ (v == clamp (confidence c))%Q
               /\ ((0 <= confidence c <= 100)%Q -> (v == confidence c)%Q))
  /\ Permutation (map name (get_risk_adjusted_crops l rs)) (map name l)
  /\ Sorted (desc rac) (get_risk_adjusted_crops l rs)
  /\ (ranked l ->
      map name (get_risk_adjusted_crops l rs) = map name l
      /\ map confidence (get_risk_adjusted_crops l rs) = map confidence l).
Proof.
  intros Hd Hf.
  assert (E : map (adjust (drought_risk rs) (flood_risk rs)) l
              = map (adjust 0 0) l).
  { apply map_ext. intro c. unfold adjust.
    rewrite (score_adj_calm _ _ _ Hd Hf). reflexivity. }
  split; [|split; [|split]].
  - intros c Hc. apply ranker_output_adjusted in Hc.
    destruct Hc as [c0 [_ ->]].
    unfold adjust; cbn [risk_adjusted_confidence confidence].
    rewrite (score_adj_calm _ _ _ Hd Hf).
    eexists. split; [reflexivity|].
    assert (Q0 : (confidence c0 + inject_Z 0 == confidence c0)%Q)
      by (change (inject_Z 0) with 0%Q; lra).
    assert (Q1 : (clamp (confidence c0 + inject_Z 0) == clamp (confidence c0))%Q).
    { unfold clamp, Py.max0, Py.min100. now rewrite Q0. }
    split; [exact Q1|]. intro R. rewrite Q1. now apply clamp_id.
  - unfold get_risk_adjusted_crops.
    rewrite (sorted_desc_perm rac), map_map. reflexivity.
  - apply (sorted_desc_sorted rac).
  - intro R. unfold get_risk_adjusted_crops. rewrite E.
    rewrite (sorted_desc_id rac) by now apply adjust_calm_sorted.
    rewrite !map_map. split; reflexivity.
Qed.

Lemma calm_risks_keep_confidence_witness :
  map name (get_risk_adjusted_crops [mk "Rice" 90; mk "Wheat" 90; mk "Jute" 10]
              (risks 60 70))
  = ["Rice"; "Wheat"; "Jute"]%string.
Proof.
  refine (proj1 (proj2 (proj2 (proj2 (calm_risks_keep_confidence
            [mk "Rice" 90; mk "Wheat" 90; mk "Jute" 10] (risks 60 70) _ _))) _)).
  - simpl. lia.
  - simpl. lia.
  - unfold ranked. repeat constructor; unfold Qle; simpl; lia.
Defined.

(** C10 as stated fails on a list that is not ranked: Wheat at 10 before
    Rice at 90 comes back as Rice before Wheat. *)
Lemma calm_risks_reorder_unranked :
  drought_risk (risks 0 0) <= 60 /\ flood_risk (risks 0 0) <= 70
  /\ map name (get_risk_adjusted_crops [mk "Wheat" 10; mk "Rice" 90] (risks 0 0))
     <> map name [mk "Wheat" 10; mk "Rice" 90].
Proof.
  split; [simpl; lia|]. split; [simpl; lia|]. discriminate.
Qed.

End RankerFacts.

(** ** The ranker on shared dicts *)

Module StoreFacts.
Import PyFacts SortFacts Weather Props Samples RankerFacts.

Lemma deref_write_same (h : store) (a : nat) (c : crop) :
  (a < List.length h)%nat -> deref (write h a c) a = Some c.
Proof.
  unfold deref. revert a. induction h as [|x r IH]; intros [|a] H; simpl in *;
    try lia; trivial. apply IH. lia.
Qed.

Lemma deref_write_other (h : store) (a b : nat) (c : crop) :
  a <> b -> deref (write h a c) b = deref h b.
Proof.
  unfold deref. revert a b. induction h as [|x r IH]; intros [|a] [|b] H;
    simpl; trivial; try easy. apply IH. congruence.
Qed.

Lemma write_same (h : store) (a : nat) (c : crop) :
  deref h a = Some c -> write h a c = h.
Proof.
  unfold deref. revert a. induction h as [|x r IH]; intros [|a] H; simpl in *;
    trivial; try congruence. f_equal. now apply IH.
Qed.

Lemma deref_Some_lt (h : store) (a : nat) (c : crop) :
  deref h a = Some c -> (a < List.length h)%nat.
Proof. intro H. apply nth_error_Some. unfold deref in H. congruence. Qed.

(** After the loop, the dicts that [predictions] names are adjusted and
    the others are as they were. *)
Lemma adjust_all_deref (d f : Z) (l : list nat) (h : store) (a : nat) :
  (In a l -> deref (adjust_all d f h l) a = option_map (adjust d f) (deref h a))
  /\ (~ In a l -> deref (adjust_all d f h l) a = deref h a).
Proof.
  revert h. induction l as [|a0 r IH]; intro h; simpl.
  - split; [easy | trivial].
  - destruct (deref h a0) as [c0|] eqn:E0.
    + pose proof (deref_Some_lt _ _ _ E0) as L0.
      destruct (IH (write h a0 (adjust d f c0))) as [IH1 IH2].
      destruct (Nat.eq_dec a0 a) as [->|N].
      * assert (R : deref (adjust_all d f (write h a (adjust d f c0)) r) a
                    = Some (adjust d f c0)).
        { destruct (in_dec Nat.eq_dec a r) as [I|I].
          - rewrite (IH1 I), deref_write_same by exact L0. reflexivity.
          - rewrite (IH2 I). now apply deref_write_same. }
        split; intro H; [now rewrite R, E0 | tauto].
      * rewrite (deref_write_other _ _ _ _ N) in IH1, IH2.
        split; intro H; [apply IH1 | apply IH2]; tauto.
    + destruct (IH h) as [IH1 IH2].
      split; intro H.
      * destruct (in_dec Nat.eq_dec a r) as [I|I]; [now apply IH1|].
        destruct H as [->|H]; [|contradiction].
        rewrite (IH2 I), E0. reflexivity.
      * apply IH2. tauto.
Qed.

(** A loop over dicts that are adjusted already leaves the store alone. *)
Lemma adjust_all_fixed (d f : Z) (l : list nat) (h : store) :
  (forall a c, In a l -> deref h a = Some c -> adjust d f c = c) ->
  adjust_all d f h l = h.
Proof.
  induction l as [|a r IH]; simpl; intro H; trivial.
  destruct (deref h a) as [c|] eqn:E.
  - rewrite (H a c (or_introl eq_refl) E), (write_same _ _ _ E).
    apply IH. intros; eapply H; eauto.
  - apply IH. intros; eapply H; eauto.
Qed.

Lemma sorted_desc_map {A B : Type} (g : A -> B) (key : B -> Q) (l : list A) :
  map g (Py.sorted_desc (fun a => key (g a)) l) = Py.sorted_desc key (map g l).
Proof.
  induction l as [|x r IH]; simpl; trivial.
  rewrite <- IH. clear IH.
  induction (Py.sorted_desc (fun a => key (g a)) r) as [|y s IHs]; simpl; trivial.
  destruct (Py.ltb (key (g x)) (key (g y))); simpl; trivial.
  now rewrite IHs.
Qed.

(** The two readings of the function agree: the dicts behind the
    returned addresses are the returned values. *)
Lemma get_risk_adjusted_crops_in_values (h : store) (predictions : list nat)
    (vs : list crop) (rs : risk_scores) :
  map (deref h) predictions = map Some vs ->
  map (deref (fst (get_risk_adjusted_crops_in h predictions rs)))
      (snd (get_risk_adjusted_crops_in h predictions rs))
  = map Some (get_risk_adjusted_crops vs rs).
Proof.
  intro Hv. unfold get_risk_adjusted_crops_in, get_risk_adjusted_crops.
  cbn [fst snd].
  set (d := drought_risk rs). set (f := flood_risk rs).
  change (rac_at (adjust_all d f h predictions))
    with (fun a => rac_opt (deref (adjust_all d f h predictions) a)).
  rewrite (sorted_desc_map (deref (adjust_all d f h predictions)) rac_opt).
  change rac with (fun c => rac_opt (Some c)).
  rewrite (sorted_desc_map (@Some crop) rac_opt).
  f_equal.
  transitivity (map (option_map (adjust d f)) (map (deref h) predictions)).
  - rewrite map_map. apply map_ext_in. intros a Ha.
    now apply adjust_all_deref.
  - rewrite Hv, !map_map. reflexivity.
Qed.

(** Every dict that the loop has visited is a fixed point of [adjust]. *)
Lemma adjust_all_adjusted (d f : Z) (l : list nat) (h : store) (a : nat) (c : crop) :
  In a l -> deref (adjust_all d f h l) a = Some c -> adjust d f c = c.
Proof.
  intros Ha E. rewrite (proj1 (adjust_all_deref d f l h a) Ha) in E.
  destruct (deref h a) as [c0|]; simpl in E; [|discriminate].
  injection E as <-. apply adjust_idem.
Qed.

(** Calling the function again, on the same list or on the list it
    returned, gives the same store and the same list. *)
Lemma get_risk_adjusted_crops_in_again (h : store) (predictions : list nat)
    (rs : risk_scores) :
  let r := get_risk_adjusted_crops_in h predictions rs in
  get_risk_adjusted_crops_in (fst r) predictions rs = r
  /\ get_risk_adjusted_crops_in (fst r) (snd r) rs = r.
Proof.
  unfold get_risk_adjusted_crops_in; cbn [fst snd].
  set (d := drought_risk rs). set (f := flood_risk rs).
  set (h' := adjust_all d f h predictions).
  assert (F1 : adjust_all d f h' predictions = h').
  { apply adjust_all_fixed. intros a c Ha. now apply adjust_all_adjusted. }
  assert (F2 : adjust_all d f h' (Py.sorted_desc (rac_at h') predictions) = h').
  { apply adjust_all_fixed. intros a c Ha.
    apply (proj1 (sorted_desc_In _ _ _)) in Ha. now apply adjust_all_adjusted. }
  rewrite F1, F2. split; [reflexivity|].
  f_equal. apply sorted_desc_id, sorted_desc_sorted.
Qed.

(** Two dicts, of which the list names the first twice: every occurrence
    sees the one adjusted dict. *)
Example shared_dict_example :
  get_risk_adjusted_crops_in [mk "Rice" 80; mk "Millets" 60]
    [0; 1; 0]%nat (risks 70 0)
  = ([with_rac "Rice" 80 60; with_rac "Millets" 60 75], [1; 0; 0]%nat).
Proof. reflexivity. Qed.

(** C7.  Applying the ranker again with the same risk scores changes
    nothing.  The adjustment is computed from [name] and [confidence] and
    never from an earlier [risk_adjusted_confidence]; so the ranker applied
    to its own output returns that output, and, on the shared dicts, a
    second call on the same list or on the returned list leaves the store
    as it is and returns the same list. *)
Theorem readjust_changes_nothing (l : list crop) (h : store)
    (predictions : list nat) (rs : risk_scores) :
  get_risk_adjusted_crops (get_risk_adjusted_crops l rs) rs
  = get_risk_adjusted_crops l rs
  /\ (forall c v,
        adjust (drought_risk rs) (flood_risk rs)
          {| name := name c; confidence := confidence c;
             risk_adjusted_confidence := v; details := details c |}
        = adjust (drought_risk rs) (flood_risk rs) c)
  /\ (let r := get_risk_adjusted_crops_in h predictions rs in
      get_risk_adjusted_crops_in (fst r) predictions rs = r
      /\ get_risk_adjusted_crops_in (fst r) (snd r) rs = r).
Proof.
  split; [|split].
  - unfold get_risk_adjusted_crops at 1.
    rewrite map_adjust_fixed.
    + apply sorted_desc_id. unfold get_risk_adjusted_crops.
      apply (sorted_desc_sorted rac).
    + intros c Hc. apply ranker_output_adjusted in Hc.
      destruct Hc as [c0 [_ ->]]. eauto.
  - intros; apply adjust_reads_confidence.
  - apply get_risk_adjusted_crops_in_again.
Qed.

End StoreFacts.

(** ** The classifier branch of [predictcrop] *)

Module AppFacts.
Import PyFacts SortFacts Weather App Props Samples.

Lemma argsort_perm (a : list Q) :
  Permutation (argsort a) (seq 0 (List.length a)).
Proof. apply sorted_desc_perm. Qed.

Lemma argsort_length (a : list Q) : List.length (argsort a) = List.length a.
Proof. unfold argsort. now rewrite sorted_desc_length, length_seq. Qed.

Lemma top_3_indices_length (a : list Q) :
  List.length (top_3_indices a) = Nat.min 3 (List.length a).
Proof.
  unfold top_3_indices, last3.
  rewrite length_rev, length_skipn, argsort_length. lia.
Qed.

Lemma top_3_indices_lt (a : list Q) (i : nat) :
  In i (top_3_indices a) -> (i < List.length a)%nat.
Proof.
  unfold top_3_indices, last3. intro H.
  apply in_rev in H.
  assert (H' : In i (argsort a)).
  { rewrite <- (firstn_skipn (List.length (argsort a) - 3) (argsort a)).
    apply in_or_app. now right. }
  apply (Permutation_in _ (argsort_perm a)) in H'.
  apply in_seq in H'. lia.
Qed.

Lemma for_each_Some {A B : Type} (f : A -> option B) (g : A -> B) (l : list A) :
  (forall x, In x l -> f x = Some (g x)) -> for_each f l = Some (map g l).
Proof.
  induction l as [|x r IH]; simpl; intro H; trivial.
  rewrite (H x (or_introl eq_refl)). simpl.
  rewrite IH by (intros; apply H; now right). reflexivity.
Qed.

Lemma for_each_length {A B : Type} (f : A -> option B) (l : list A) (r : list B) :
  for_each f l = Some r -> List.length r = List.length l.
Proof.
  revert r. induction l as [|x l IH]; simpl; intros r H.
  - now injection H as <-.
  - destruct (f x); simpl in H; [|discriminate].
    destruct (for_each f l); simpl in H; [|discriminate].
    injection H as <-. simpl. f_equal. now apply IH.
Qed.

Lemma for_each_map {A B : Type} (f : A -> option B) (g : A -> B)
    (l : list A) (r : list B) :
  (forall x y, f x = Some y -> y = g x) ->
  for_each f l = Some r -> r = map g l.
Proof.
  intro H. revert r. induction l as [|x l IH]; simpl; intros r E.
  - now injection E as <-.
  - destruct (f x) as [y|] eqn:Ex; simpl in E; [|discriminate].
    destruct (for_each f l) as [ys|]; simpl in E; [|discriminate].
    injection E as <-. now rewrite (H x y Ex), (IH ys eq_refl).
Qed.

(** Whatever the loop builds is the entry of a class index. *)
Lemma top_3_crops_entries (crop_details : string -> list (string * string))
    (classes : list string) (probabilities : list Q) (crops : list crop) :
  top_3_crops crop_details classes probabilities = Some crops ->
  crops = map (entry crop_details classes probabilities)
              (top_3_indices probabilities).
Proof.
  apply for_each_map. intros i c. unfold top_crop, inverse_transform, entry.
  destruct (nth_error classes i) as [nm|] eqn:E; simpl; [|discriminate].
  intro H. injection H as <-. now rewrite (nth_error_nth _ _ _ E).
Qed.

(** No check is made on the probabilities: every row that is not longer
    than the class list is reduced. *)
Lemma top_3_crops_Some (crop_details : string -> list (string * string))
    (classes : list string) (probabilities : list Q) :
  (List.length probabilities <= List.length classes)%nat ->
  top_3_crops crop_details classes probabilities
  = Some (map (entry crop_details classes probabilities)
              (top_3_indices probabilities)).
Proof.
  intro H. unfold top_3_crops. apply for_each_Some.
  intros i Hi. apply top_3_indices_lt in Hi.
  unfold top_crop, inverse_transform, entry.
  assert (L : (i < List.length classes)%nat) by lia.
  rewrite (nth_error_nth' classes EmptyString L). reflexivity.
Qed.

(** C8, amended.  The classifier branch has no error of its own for the
    probabilities and no fallback to the rule-based scorer.  Without a
    bundle the request ends in the warming-up notice.  With a bundle it
    ends in the error flash of the handler when a form label is unknown to
    its encoder or the classifier gives fewer than three probabilities;
    three or more probabilities, no more than there are crop classes, are
    reduced unchecked to the three most probable classes; and whatever the
    request shows as predictions are the entries of the three most probable
    class indices. *)
Theorem predictcrop_outcomes (b : bundle)
    (risk_engine : option ClimateRiskEngine) (location : option string)
    (crop_details : string -> list (string * string))
    (form : SimplePredictor.input) :
  predictcrop None risk_engine location crop_details form = WarmingUp
  /\ (features b form = None ->
      predictcrop (Some b) risk_engine location crop_details form = ErrorFlash)
  /\ (forall feats, features b form = Some feats ->
        (List.length (model b feats) < 3)%nat ->
        predictcrop (Some b) risk_engine location crop_details form = ErrorFlash)
  /\ (forall feats, features b form = Some feats ->
        (3 <= List.length (model b feats) <= List.length (le_crop b))%nat ->
        predictcrop (Some b) risk_engine location crop_details form
        = Results (map (entry crop_details (le_crop b) (model b feats))
                       (top_3_indices (model b feats)))
                  (risk_data_of risk_engine location form))
  /\ (forall predictions risk_data,
        predictcrop (Some b) risk_engine location crop_details form
        = Results predictions risk_data ->
        exists feats, features b form = Some feats
          /\ predictions = map (entry crop_details (le_crop b) (model b feats))
                               (top_3_indices (model b feats))).
Proof.
  split; [reflexivity|]. unfold predictcrop, predict.
  split; [now intros ->|]. split; [|split].
  - intros feats -> L. simpl.
    destruct (top_3_crops crop_details (le_crop b) (model b feats))
      as [crops|] eqn:E; simpl; trivial.
    apply for_each_length in E. rewrite top_3_indices_length in E.
    destruct crops as [|c1 [|c2 [|c3 r]]]; trivial. cbn [List.length] in E. lia.
  - intros feats -> [L1 L2]. simpl.
    rewrite (top_3_crops_Some _ _ _ L2). simpl.
    pose proof (top_3_indices_length (model b feats)) as E.
    rewrite <- (length_map (entry crop_details (le_crop b) (model b feats))) in E.
    destruct (map _ _) as [|c1 [|c2 [|c3 r]]]; trivial; cbn [List.length] in E; lia.
  - intros predictions rd.
    destruct (features b form) as [feats|]; simpl; [|discriminate].
    destruct (top_3_crops crop_details (le_crop b) (model b feats))
      as [crops|] eqn:E; simpl; [|discriminate].
    apply top_3_crops_entries in E.
    destruct crops as [|c1 [|c2 [|c3 r]]]; try discriminate.
    intro H. injection H as <- _. eauto.
Qed.

Lemma predictcrop_outcomes_witness :
  map name
    match predictcrop (Some short_bundle) None None no_details
            sample with
    | Results predictions _ => predictions
    | _ => []
    end
  = ["Millets"; "Rice"; "Maize"]%string.
Proof.
  destruct (predictcrop_outcomes short_bundle None None no_details
              sample) as (_ & _ & _ & H & _).
  rewrite (H _ eq_refl); [reflexivity|].
  simpl. lia.
Defined.

(** C8 as stated fails: a probability row of the wrong length is reduced
    without an error, and without a bundle the request ends in the
    warming-up notice, not in the rule-based scores. *)
Lemma no_distribution_check :
  List.length [0.1; 0.7; 0.2]%Q <> List.length (le_crop short_bundle)
  /\ top_3_crops no_details (le_crop short_bundle) [0.1; 0.7; 0.2]%Q <> None
  /\ (exists predictions risk_data,
        predictcrop (Some short_bundle) None None no_details
          sample = Results predictions risk_data)
  /\ (forall risk_data,
        predictcrop None None None no_details sample
        <> Results (map (fun e => mk (SimplePredictor.name e)
                                    (inject_Z (SimplePredictor.confidence e)))
                        (SimplePredictor.predict_crops_simple
                           sample))
                   risk_data).
Proof.
  split; [simpl; lia|]. split; [discriminate|]. split.
  - eexists. eexists. vm_compute. reflexivity.
  - intros rd. discriminate.
Qed.

End AppFacts.

(** * Further properties *)

(** ** More on the built-ins *)

Module PyMore.
Import PyFacts.

Ltac qcmp H :=
  match type of H with
  | Qcompare ?a ?b = Eq => apply (proj2 (Qeq_alt a b)) in H
  | Qcompare ?a ?b = Lt => apply (proj2 (Qlt_alt a b)) in H
  | Qcompare ?a ?b = Gt => apply (proj2 (Qgt_alt a b)) in H
  end.

(** [round] is monotone. *)
Lemma round_mono (x y : Q) : (x <= y)%Q -> Py.round x <= Py.round y.
Proof.
  intro H. pose proof (Qfloor_resp_le _ _ H) as Hf.
  unfold Py.round.
  destruct (Z.eq_dec (Qfloor x) (Qfloor y)) as [E|N].
  - rewrite <- E.
    destruct (Qcompare (x - inject_Z (Qfloor x)) (1 # 2)) eqn:Cx;
      destruct (Qcompare (y - inject_Z (Qfloor x)) (1 # 2)) eqn:Cy;
      try (destruct (Z.even (Qfloor x)); lia); try lia; exfalso;
      qcmp Cx; qcmp Cy; lra.
  - destruct (Qcompare _ _); destruct (Qcompare _ _);
      repeat match goal with |- context [Z.even ?z] => destruct (Z.even z) end; lia.
Qed.

Lemma lower_ascii_idem (c : ascii) :
  Py.lower_ascii (Py.lower_ascii c) = Py.lower_ascii c.
Proof. destruct c as [[] [] [] [] [] [] [] []]; reflexivity. Qed.

Lemma lower_idem (s : string) : Py.lower (Py.lower s) = Py.lower s.
Proof.
  induction s as [|c r IH]; simpl; trivial.
  now rewrite lower_ascii_idem, IH.
Qed.


End PyMore.

(** ** More on the rule-based scorer *)

Module ScorerMore.
Import PyFacts SortFacts SimplePredictor Props Samples SimplePredictorFacts PyMore.
Import Terms.

Lemma sorted_crops_incl (i : input) (x : string * Z) :
  In x (sorted_crops i) -> In x (scores i).
Proof.
  unfold sorted_crops. intro H.
  apply (sorted_desc_In (fun x => inject_Z (snd x))).
  rewrite <- (firstn_skipn 3 (Py.sorted_desc _ (scores i))).
  apply in_or_app. left. exact H.
Qed.

Lemma NoDup_firstn {A : Type} (k : nat) (l : list A) :
  NoDup l -> NoDup (firstn k l).
Proof.
  intro H. rewrite <- (firstn_skipn k l) in H.
  now apply NoDup_app_remove_r in H.
Qed.

Lemma catalog_names_NoDup : NoDup (map fst crops_db).
Proof.
  unfold crops_db. cbn [map fst].
  repeat (constructor; [cbn [In]; intuition discriminate|]). constructor.
Qed.

(** X1.  The scorer returns three entries with three different crop names; each
    is a crop of the catalog with its own score, which lies between 0 and
    100. *)
Theorem predict_crops_simple_entries (i : input) :
  List.length (predict_crops_simple i) = 3%nat
  /\ NoDup (map name (predict_crops_simple i))
  /\ forall e, In e (predict_crops_simple i) ->
       0 <= confidence e <= 100
       /\ exists req, In (name e, req) crops_db /\ confidence e = score req i.
Proof.
  split; [|split].
  - unfold predict_crops_simple, sorted_crops.
    now rewrite length_map, length_firstn, sorted_desc_length, scores_length.
  - assert (E : map name (predict_crops_simple i) = map fst (sorted_crops i)).
    { unfold predict_crops_simple. rewrite map_map. reflexivity. }
    rewrite E. unfold sorted_crops. rewrite <- firstn_map.
    apply NoDup_firstn.
    apply (Permutation_NoDup (l := map fst (scores i))).
    + apply Permutation_map. symmetry. apply sorted_desc_perm.
    + unfold scores. rewrite map_map. apply catalog_names_NoDup.
  - intros e He. unfold predict_crops_simple in He.
    apply in_map_iff in He. destruct He as [[c s] [<- Hx]].
    apply sorted_crops_incl in Hx. unfold scores in Hx.
    apply in_map_iff in Hx. destruct Hx as [[c' req] [E Hin]].
    simpl in E. injection E as -> <-. simpl.
    split; [apply score_bounds|]. now exists req.
Qed.

(** The partial credit for a near miss needs a range narrower than the
    band around its midpoint. *)
Lemma temp_points_wide (req : requirement) (i : input) :
  fst (temp_range req) + 10 <= snd (temp_range req) ->
  temp_points req i = 20 \/ temp_points req i = 0.
Proof.
  intro W. unfold temp_points.
  destruct (in_zrange _ _) eqn:E; [now left|]. right.
  destruct (Py.ltb _ _) eqn:L; trivial. exfalso.
  apply ltb_lt in L. apply Qabs_Qlt_condition in L. destruct L as [L1 L2].
  assert (B : in_zrange (temp_range req) (temperature i) = true); [|congruence].
  apply between_iff. unfold zmid in *.
  rewrite inject_Z_plus in *. rewrite Zle_Qle, inject_Z_plus in W.
  change (inject_Z 10) with 10%Q in W.
  set (lo := inject_Z (fst (temp_range req))) in *.
  set (hi := inject_Z (snd (temp_range req))) in *.
  assert (M : ((lo + hi) / 2 == (lo + hi) * (1 # 2))%Q) by (field).
  rewrite M in L1, L2. split; lra.
Qed.

Lemma ph_points_wide (req : requirement) (i : input) :
  (fst (ph_range req) + 1 <= snd (ph_range req))%Q ->
  ph_points req i = 10 \/ ph_points req i = 0.
Proof.
  intro W. unfold ph_points.
  destruct (Py.between _ _ _) eqn:E; [now left|]. right.
  destruct (Py.ltb _ _) eqn:L; trivial. exfalso.
  apply ltb_lt in L. apply Qabs_Qlt_condition in L. destruct L as [L1 L2].
  assert (B : Py.between (fst (ph_range req)) (ph i) (snd (ph_range req)) = true);
    [|congruence].
  apply between_iff. unfold qmid in *.
  set (lo := fst (ph_range req)) in *. set (hi := snd (ph_range req)) in *.
  assert (M : ((lo + hi) / 2 == (lo + hi) * (1 # 2))%Q) by (field).
  rewrite M in L1, L2. split; lra.
Qed.

(** X2.  For the crops of the catalog the partial credit for a near miss is never
    given: every temperature range is at least 10 wide and every pH range
    at least 1, so a value within 5 (resp. 0.5) of the midpoint is inside the
    range.  Temperature brings 20 points or none, pH 10 or none. *)
Theorem catalog_no_partial_credit (crop : string) (req : requirement) (i : input) :
  In (crop, req) crops_db ->
  (temp_points req i = 20 \/ temp_points req i = 0)
  /\ (ph_points req i = 10 \/ ph_points req i = 0).
Proof.
  intro H. split.
  - apply temp_points_wide. unfold crops_db in H. cbn [In] in H.
    repeat (destruct H as [H|H]; [injection H as _ <-; simpl; lia|]).
    contradiction.
  - apply ph_points_wide. unfold crops_db in H. cbn [In] in H.
    repeat (destruct H as [H|H]; [injection H as _ <-; unfold Qle; simpl; lia|]).
    contradiction.
Qed.

Lemma catalog_no_partial_credit_witness :
  temp_points rice sample = 20 \/ temp_points rice sample = 0.
Proof.
  apply (proj1 (catalog_no_partial_credit "Rice" rice sample
                  (or_introl eq_refl))).
Defined.

(** X3.  The scorer reads neither the humidity nor the region: two inputs that
    agree on the other eight values get the same result. *)
Theorem humidity_region_unused (i j : input) :
  same_but_humidity_region i j ->
  predict_crops_simple i = predict_crops_simple j.
Proof.
  intros (Hn & Hp & Hk & Ht & Hph & Hr & Hso & Hse).
  assert (E : scores i = scores j).
  { unfold scores. apply map_ext. intros [c req]. simpl. f_equal.
    unfold score, raw_score. points.
    now rewrite Hn, Hp, Hk, Ht, Hph, Hr, Hso, Hse. }
  unfold predict_crops_simple, sorted_crops. now rewrite E.
Qed.

Lemma humidity_region_unused_witness :
  predict_crops_simple
    {| n := 80; p := 40; k := 40; temperature := 27; humidity := 5;
       ph := 6.5; rainfall := 1300; soil_type := "Loamy"; season := "Kharif";
       region := "North" |}
  = predict_crops_simple sample.
Proof.
  apply humidity_region_unused. repeat split.
Defined.

(** X4.  More rainfall never lowers the score of a crop, whatever its
    requirement, when the rest of the input stays as it is. *)
Theorem more_rain_never_lowers (req : requirement) (i j : input) :
  same_but_rainfall i j ->
  (rainfall i <= rainfall j)%Q ->
  score req i <= score req j.
Proof.
  intros (Hn & Hp & Hk & Ht & Hph & Hso & Hse) Hr.
  assert (R : rain_points req i <= rain_points req j).
  { unfold rain_points.
    destruct (Py.geb (rainfall i) (inject_Z (rainfall_min req))) eqn:A.
    - apply geb_ge in A.
      assert (B : Py.geb (rainfall j) (inject_Z (rainfall_min req)) = true)
        by (apply geb_ge; lra).
      rewrite B. lia.
    - destruct (Py.geb (rainfall i) (inject_Z (rainfall_min req) * 0.7)) eqn:B.
      + apply geb_ge in B.
        assert (C : Py.geb (rainfall j) (inject_Z (rainfall_min req) * 0.7) = true)
          by (apply geb_ge; lra).
        rewrite C.
        destruct (Py.geb (rainfall j) (inject_Z (rainfall_min req))); lia.
      + repeat match goal with |- context [if ?b then _ else _] => destruct b end;
          lia. }
  unfold score, raw_score.
  assert (E : n_points req i = n_points req j /\ p_points req i = p_points req j
              /\ k_points req i = k_points req j
              /\ temp_points req i = temp_points req j
              /\ ph_points req i = ph_points req j
              /\ soil_points req i = soil_points req j
              /\ season_points req i = season_points req j).
  { unfold n_points, p_points, k_points, temp_points, ph_points, soil_points,
      season_points. now rewrite Hn, Hp, Hk, Ht, Hph, Hso, Hse. }
  lia.
Qed.

Lemma more_rain_never_lowers_witness :
  score rice
    {| n := 80; p := 40; k := 40; temperature := 27; humidity := 50;
       ph := 6.5; rainfall := 650; soil_type := "Loamy"; season := "Kharif";
       region := "South" |}
  <= score rice sample.
Proof.
  apply more_rain_never_lowers.
  - repeat split.
  - unfold Qle. simpl. lia.
Defined.

Lemma full_points (a b : bool) (x y z : Z) :
  x <> y -> x <> z ->
  (if a then x else if b then y else z) = x -> a = true.
Proof. destruct a, b; congruence. Qed.

(** X5.  A crop scores 100 exactly when the input meets its whole requirement
    profile. *)
Theorem score_100_only_full_match (req : requirement) (i : input) :
  score req i = 100 <-> full_match req i.
Proof.
  split; [|apply full_match_score].
  intro H. unfold score, raw_score in H.
  pose proof (rule_points req i) as (Bn & Bp & Bk & Bt & Br & Bph & Bso & Bse).
  assert (E : n_points req i = 15 /\ p_points req i = 12 /\ k_points req i = 13
              /\ temp_points req i = 20 /\ rain_points req i = 15
              /\ ph_points req i = 10 /\ soil_points req i = 10
              /\ season_points req i = 5) by lia.
  clear H Bn Bp Bk Bt Br Bph Bso Bse.
  destruct E as (En & Ep & Ek & Et & Er & Eph & Eso & Ese).
  apply (full_points _ false _ 0 0) in En, Ep, Ek, Eso, Ese; try lia.
  apply full_points in Et, Er, Eph; try lia.
  unfold in_zrange in *.
  apply between_iff in En, Ep, Ek, Et, Eph. apply geb_ge in Er.
  apply str_in_In in Eso, Ese.
  unfold full_match. cbv zeta. tauto.
Qed.

(** X6.  No input gives more than three crops of the catalog the score 100. *)
Theorem at_most_three_perfect (i : input) :
  (List.length (filter (fun x => (snd x =? 100)%Z) (scores i)) <= 3)%nat.
Proof.
  pose proof (perfect_at_most_3 i) as H.
  erewrite filter_ext_in; [exact H|].
  intros [c s] Hin. cbn [snd]. unfold Py.geb.
  pose proof (scores_le_100 i) as F. rewrite Forall_forall in F.
  specialize (F _ Hin). cbn [snd] in F.
  change 100%Q with (inject_Z 100) in *. rewrite <- Zle_Qle in F.
  destruct (Z.eqb_spec s 100) as [->|N].
  - symmetry. apply Qle_bool_iff. apply Qle_refl.
  - destruct (Qle_bool (inject_Z 100) (inject_Z s)) eqn:E; trivial.
    apply Qle_bool_iff in E. rewrite <- Zle_Qle in E. lia.
Qed.

End ScorerMore.

(** ** More on the climate risk estimator *)

Module RiskMore.
Import PyFacts Weather Props Samples WeatherFacts PyMore.

(** X7.  For every engine, city and input the drought risk lies between 0 and
    100 and the flood risk is at most 100; the flood risk is not negative
    when neither the historical rainfall nor the humidity that was used
    is. *)
Theorem risk_scores_ranges (self : ClimateRiskEngine) (city : option string)
    (hist_rainfall hist_temp : Q) :
  let rs := calculate_risk_scores self city hist_rainfall hist_temp in
  0 <= drought_risk rs <= 100
  /\ flood_risk rs <= 100
  /\ ((0 <= hist_rainfall)%Q -> (0 <= current_humidity rs)%Q ->
      0 <= flood_risk rs).
Proof.
  unfold calculate_risk_scores. cbv zeta.
  split; [apply drought_risk_range|]. split; [apply flood_risk_le_100|].
  intros Hr Hh. apply flood_risk_nonneg; trivial.
  intros s E. rewrite E in Hh. exact Hh.
Qed.

Lemma risk_scores_ranges_witness :
  0 <= flood_risk (calculate_risk_scores offline (Some "Pune"%string) 300 30).
Proof.
  apply (proj2 (proj2 (risk_scores_ranges offline (Some "Pune"%string) 300 30)));
    unfold Qle; simpl; lia.
Defined.

Lemma drought_score_temp_mono (t1 t2 h r : Q) :
  (t1 <= t2)%Q -> (drought_score t1 h r <= drought_score t2 h r)%Q.
Proof.
  intro H. unfold drought_score.
  assert (M : (Py.max0 (t1 - 25) <= Py.max0 (t2 - 25))%Q).
  { unfold Py.max0. apply Q.max_le_compat_l. lra. }
  destruct (Py.ltb r 500); lra.
Qed.

Lemma drought_score_rain_antimono (t h r1 r2 : Q) :
  (r1 <= r2)%Q -> (drought_score t h r2 <= drought_score t h r1)%Q.
Proof.
  intro H. unfold drought_score.
  destruct (Py.ltb r2 500) eqn:E2.
  - apply ltb_lt in E2.
    assert (E1 : Py.ltb r1 500 = true) by (apply ltb_lt; lra).
    rewrite E1. lra.
  - destruct (Py.ltb r1 500); lra.
Qed.

Lemma flood_score_rain_mono (h r1 r2 : Q) :
  (r1 <= r2)%Q -> (flood_score h r1 <= flood_score h r2)%Q.
Proof.
  intro H. unfold flood_score.
  assert (r1 / 50 <= r2 / 50)%Q.
  { unfold Qdiv. apply Qmult_le_compat_r; trivial. unfold Qle. simpl. lia. }
  lra.
Qed.

(** X8.  More historical rainfall never lowers the flood risk and never raises
    the drought risk; a higher historical temperature never lowers the
    drought risk. *)
Theorem risks_follow_rain_and_heat (self : ClimateRiskEngine)
    (city : option string) (r1 r2 t1 t2 : Q) :
  ((r1 <= r2)%Q ->
   flood_risk (calculate_risk_scores self city r1 t1)
   <= flood_risk (calculate_risk_scores self city r2 t1)
   /\ drought_risk (calculate_risk_scores self city r2 t1)
      <= drought_risk (calculate_risk_scores self city r1 t1))
  /\ ((t1 <= t2)%Q ->
      drought_risk (calculate_risk_scores self city r1 t1)
      <= drought_risk (calculate_risk_scores self city r1 t2)).
Proof.
  unfold calculate_risk_scores, risk_scores_of. cbn [drought_risk flood_risk].
  split.
  - intro H. split.
    + apply Z.min_le_compat_l, round_mono, flood_score_rain_mono, H.
    + apply Z.min_le_compat_l, round_mono, drought_score_rain_antimono, H.
  - intro H. apply Z.min_le_compat_l, round_mono.
    destruct (weather self city) as [w|].
    + apply Qle_refl.
    + now apply drought_score_temp_mono.
Qed.

Lemma risks_follow_rain_and_heat_witness :
  flood_risk (calculate_risk_scores offline None 300 30)
  <= flood_risk (calculate_risk_scores offline None 900 30).
Proof.
  apply (proj1 (proj1 (risks_follow_rain_and_heat offline None 300 900 30 30)
                  ltac:(unfold Qle; simpl; lia))).
Defined.

(** X9.  Without an API key, or without a city, the weather service is not
    asked: the result is the same whatever the service would answer, and it
    reports the historical temperature and the humidity 50. *)
Theorem keyless_engine_ignores_service (self : ClimateRiskEngine)
    (other : string -> string -> option weather_data)
    (city : option string) (hist_rainfall hist_temp : Q) :
  api_key self = None \/ api_key self = Some EmptyString
  \/ city = None \/ city = Some EmptyString ->
  calculate_risk_scores self city hist_rainfall hist_temp
  = calculate_risk_scores {| api_key := api_key self; service := other |}
      city hist_rainfall hist_temp
  /\ current_temp (calculate_risk_scores self city hist_rainfall hist_temp)
     = hist_temp
  /\ current_humidity (calculate_risk_scores self city hist_rainfall hist_temp)
     = 50%Q.
Proof.
  intro H. unfold calculate_risk_scores.
  assert (E : forall e, api_key e = api_key self -> weather e city = None).
  { intros e Ek. apply weather_None_iff. rewrite Ek. tauto. }
  rewrite (E self eq_refl), (E {| api_key := api_key self; service := other |} eq_refl).
  repeat split.
Qed.

Lemma keyless_engine_ignores_service_witness :
  current_humidity (calculate_risk_scores offline (Some "Pune"%string) 300 30)
  = 50%Q.
Proof.
  apply (proj2 (proj2 (keyless_engine_ignores_service offline
           (fun _ _ => Some {| main_temp := 10; main_humidity := 90 |})
           (Some "Pune"%string) 300 30 (or_introl eq_refl)))).
Defined.

End RiskMore.

(** ** More on the risk-adjusted ranker *)

Module RankerMore.
Import PyFacts SortFacts Weather Props Samples RankerFacts StoreFacts PyMore.
Import Terms.

(** X10.  The ranker returns the crops it was given, each once, with the name,
    the confidence and the other keys as they were, and with an adjusted
    confidence between 0 and 100. *)
Theorem ranker_keeps_crops (l : list crop) (rs : risk_scores) :
  Permutation (map given (get_risk_adjusted_crops l rs)) (map given l)
  /\ List.length (get_risk_adjusted_crops l rs) = List.length l
  /\ forall c, In c (get_risk_adjusted_crops l rs) ->
       exists v, risk_adjusted_confidence c = Some v /\ (0 <= v <= 100)%Q.
Proof.
  split; [|split].
  - unfold get_risk_adjusted_crops.
    rewrite (sorted_desc_perm rac), map_map. reflexivity.
  - unfold get_risk_adjusted_crops.
    now rewrite sorted_desc_length, length_map.
  - intros c Hc. apply ranker_output_adjusted in Hc.
    destruct Hc as [c0 [_ ->]]. eexists. split; [reflexivity|].
    apply clamp_range.
Qed.

(** X11.  The adjustment is one of -25, -20, 0, 15 and 20, and it is 0 for every
    crop whose lower-cased name is none of millets, pulses, maize, rice and
    cotton, whatever the risks. *)
Theorem score_adj_values (d_risk f_risk : Z) (nm : string) :
  In (score_adj d_risk f_risk nm) [-25; -20; 0; 15; 20]
  /\ (~ In (Py.lower nm) ruled -> score_adj d_risk f_risk nm = 0).
Proof.
  unfold score_adj, drought_adj, flood_adj, ruled.
  unfold drought_tolerant, water_intensive, water_tolerant, drought_favoring,
    Py.str_in. cbn [existsb In].
  generalize (Py.lower nm) as s. intro s.
  destruct (60 <? d_risk), (70 <? f_risk);
    repeat match goal with
      | |- context [String.eqb s ?l] => destruct (String.eqb_spec s l) as [->|]
      end; cbn; (split; [auto 10|]);
    first [intros _; reflexivity | intro H; exfalso; apply H; auto 10].
Qed.

Lemma score_adj_values_witness : score_adj 90 90 "Wheat" = 0.
Proof.
  apply (proj2 (score_adj_values 90 90 "Wheat")).
  cbn. intuition discriminate.
Defined.

(** X12.  On the shared dicts the ranker returns the addresses it was given, in
    another order; it writes the adjusted confidence into every dict that
    the list names and leaves every other dict of the store as it was. *)
Theorem ranker_writes_in_place (h : store) (predictions : list nat)
    (rs : risk_scores) (a : nat) :
  let r := get_risk_adjusted_crops_in h predictions rs in
  Permutation (snd r) predictions
  /\ List.length (fst r) = List.length h
  /\ (In a predictions ->
      deref (fst r) a
      = option_map (adjust (drought_risk rs) (flood_risk rs)) (deref h a))
  /\ (~ In a predictions -> deref (fst r) a = deref h a).
Proof.
  unfold get_risk_adjusted_crops_in. cbn [fst snd].
  split; [apply sorted_desc_perm|]. split.
  - generalize (drought_risk rs) (flood_risk rs). intros d f.
    revert h. induction predictions as [|b r IH]; intro h; simpl; trivial.
    destruct (deref h b) as [c|]; rewrite IH; trivial.
    clear. revert b. induction h as [|x h IH]; intros [|b]; simpl; trivial.
    now rewrite IH.
  - apply adjust_all_deref.
Qed.

Lemma ranker_writes_in_place_witness :
  deref (fst (get_risk_adjusted_crops_in [mk "Rice" 80; mk "Millets" 60]
                [1%nat] (risks 70 0))) 0
  = Some (mk "Rice" 80).
Proof.
  apply (proj2 (proj2 (proj2 (ranker_writes_in_place
           [mk "Rice" 80; mk "Millets" 60] [1%nat] (risks 70 0) 0%nat)))).
  cbn. intuition discriminate.
Defined.

(** X13.  The two readings of the ranker agree: the dicts behind the returned
    addresses are the values that the ranker on values returns for the
    dicts behind the given addresses. *)
Theorem ranker_in_place_agrees (h : store) (predictions : list nat)
    (vs : list crop) (rs : risk_scores) :
  map (deref h) predictions = map Some vs ->
  map (deref (fst (get_risk_adjusted_crops_in h predictions rs)))
      (snd (get_risk_adjusted_crops_in h predictions rs))
  = map Some (get_risk_adjusted_crops vs rs).
Proof.
  intro Hv. unfold get_risk_adjusted_crops_in, get_risk_adjusted_crops.
  cbn [fst snd].
  set (d := drought_risk rs). set (f := flood_risk rs).
  set (h' := adjust_all d f h predictions).
  change (rac_at h') with (fun a => rac_opt (deref h' a)).
  rewrite (sorted_desc_map (deref h') rac_opt).
  change rac with (fun c => rac_opt (Some c)).
  rewrite (sorted_desc_map (@Some crop) rac_opt).
  f_equal.
  transitivity (map (option_map (adjust d f)) (map (deref h) predictions)).
  - rewrite map_map. apply map_ext_in. intros a Ha.
    now apply adjust_all_deref.
  - rewrite Hv, !map_map. reflexivity.
Qed.

Lemma ranker_in_place_agrees_witness :
  map (deref (fst (get_risk_adjusted_crops_in [mk "Rice" 80; mk "Millets" 60]
                     [0; 1; 0]%nat (risks 70 0))))
      (snd (get_risk_adjusted_crops_in [mk "Rice" 80; mk "Millets" 60]
              [0; 1; 0]%nat (risks 70 0)))
  = map Some (get_risk_adjusted_crops
                [mk "Rice" 80; mk "Millets" 60; mk "Rice" 80] (risks 70 0)).
Proof.
  apply ranker_in_place_agrees. reflexivity.
Defined.

End RankerMore.

(** ** More on the classifier branch *)

Module AppMore.
Import PyFacts SortFacts Weather App Props Samples AppFacts PyMore.
Import SimplePredictorFacts.

Lemma StronglySorted_skipn {A : Type} (R : A -> A -> Prop) (k : nat) (l : list A) :
  StronglySorted R l -> StronglySorted R (skipn k l).
Proof.
  revert l. induction k as [|k IH]; intros l S; simpl; trivial.
  destruct l as [|x l]; trivial. apply IH.
  now apply StronglySorted_inv in S.
Qed.

Lemma StronglySorted_app {A : Type} (R : A -> A -> Prop) (l r : list A) :
  StronglySorted R l -> StronglySorted R r ->
  (forall a b, In a l -> In b r -> R a b) ->
  StronglySorted R (l ++ r).
Proof.
  induction 1 as [|x l S IH F]; simpl; intros Sr H; trivial.
  constructor.
  - apply IH; trivial. intros; apply H; auto.
  - apply Forall_app. split; trivial.
    apply Forall_forall. intros b Hb. apply H; auto.
Qed.

Lemma StronglySorted_rev {A : Type} (R : A -> A -> Prop) (l : list A) :
  StronglySorted R l -> StronglySorted (fun a b => R b a) (rev l).
Proof.
  induction 1 as [|x l S IH F]; simpl; [constructor|].
  apply StronglySorted_app; trivial.
  - repeat constructor.
  - intros a b Ha [<-|[]]. apply in_rev in Ha.
    rewrite Forall_forall in F. now apply F.
Qed.

(** The indices come with their probabilities in descending order. *)
Lemma top_3_indices_sorted (a : list Q) :
  StronglySorted (fun i j => (nth j a 0 <= nth i a 0)%Q) (top_3_indices a).
Proof.
  unfold top_3_indices, last3.
  apply (StronglySorted_rev (fun i j => (nth i a 0 <= nth j a 0)%Q)).
  apply StronglySorted_skipn. unfold argsort.
  pose proof (sorted_desc_strongly (fun i => (- nth i a 0)%Q)
                (seq 0 (List.length a))) as S.
  rewrite <- (map_id (Py.sorted_desc _ _)). revert S.
  apply StronglySorted_map. intros i j. unfold desc. lra.
Qed.

Lemma round2_mono (x y : Q) : (x <= y)%Q -> (Py.round2 x <= Py.round2 y)%Q.
Proof.
  intro H. unfold Py.round2, Qdiv.
  apply Qmult_le_compat_r; [|unfold Qle; simpl; lia].
  rewrite <- Zle_Qle. apply round_mono. lra.
Qed.

Lemma for_each_Forall2 {A B : Type} (f : A -> option B) (l : list A) (r : list B) :
  for_each f l = Some r -> Forall2 (fun x y => f x = Some y) l r.
Proof.
  revert r. induction l as [|x l IH]; simpl; intros r E.
  - injection E as <-. constructor.
  - destruct (f x) as [y|] eqn:Ex; simpl in E; [|discriminate].
    destruct (for_each f l) as [ys|]; simpl in E; [|discriminate].
    injection E as <-. constructor; auto.
Qed.

Lemma Forall2_In_r {A B : Type} (R : A -> B -> Prop) (l : list A)
    (r : list B) (y : B) :
  Forall2 R l r -> In y r -> exists x, R x y.
Proof.
  induction 1 as [|x y' l r Hxy _ IH]; intros Hy; [easy|].
  destruct Hy as [<-|Hy]; eauto.
Qed.

(** What is rendered has exactly three entries. *)
Lemma results_three (b : bundle)
    (risk_engine : option ClimateRiskEngine) (location : option string)
    (crop_details : string -> list (string * string))
    (form : SimplePredictor.input)
    (predictions : list crop) (risk_data : risk_scores) :
  predictcrop (Some b) risk_engine location crop_details form
  = Results predictions risk_data ->
  exists c1 c2 c3, predictions = [c1; c2; c3].
Proof.
  unfold predictcrop, predict.
  destruct (features b form) as [feats|]; simpl; [|discriminate].
  destruct (top_3_crops crop_details (le_crop b) (model b feats))
    as [crops|] eqn:E; simpl; [|discriminate].
  apply for_each_length in E. rewrite top_3_indices_length in E.
  destruct crops as [|c1 [|c2 [|c3 r]]]; try discriminate.
  intro H. injection H as <- _.
  destruct r; [eauto | cbn [List.length] in E; lia].
Qed.

(** X14.  Whenever the request renders predictions, there are three of them, in
    descending order of confidence, each named by a class of the bundle and
    without an adjusted confidence; they do not depend on the risk engine
    or the location, which only decide the risk figures shown. *)
Theorem rendered_predictions (b : bundle)
    (risk_engine : option ClimateRiskEngine) (location : option string)
    (crop_details : string -> list (string * string))
    (form : SimplePredictor.input)
    (predictions : list crop) (risk_data : risk_scores) :
  predictcrop (Some b) risk_engine location crop_details form
  = Results predictions risk_data ->
  List.length predictions = 3%nat
  /\ StronglySorted (fun c c' => (confidence c' <= confidence c)%Q) predictions
  /\ (forall c, In c predictions ->
        risk_adjusted_confidence c = None
        /\ In (name c) (le_crop b)
        /\ details c = crop_details (name c))
  /\ forall risk_engine' location',
       predictcrop (Some b) risk_engine' location' crop_details form
       = Results predictions (risk_data_of risk_engine' location' form).
Proof.
  unfold predictcrop, predict.
  destruct (features b form) as [feats|]; simpl; [|discriminate].
  destruct (top_3_crops crop_details (le_crop b) (model b feats))
    as [crops|] eqn:E; simpl; [|discriminate].
  pose proof (top_3_crops_entries _ _ _ _ E) as En.
  pose proof (for_each_length _ _ _ E) as Len.
  rewrite top_3_indices_length in Len.
  apply for_each_Forall2 in E.
  destruct crops as [|c1 [|c2 [|c3 r]]]; try discriminate.
  intro H. injection H as <- <-.
  split; [cbn [List.length] in *; lia|]. split; [|split].
  - rewrite En.
    generalize (top_3_indices_sorted (model b feats)).
    apply StronglySorted_map. intros i j Hij. unfold entry; cbn [confidence].
    apply round2_mono. apply Qmult_le_compat_r; trivial. unfold Qle; simpl; lia.
  - intros c Hc.
    assert (Hx : exists idx, top_crop crop_details (le_crop b) (model b feats) idx
                             = Some c).
    { apply (Forall2_In_r _ _ _ _ E Hc). }
    destruct Hx as [idx Hx]. unfold top_crop, inverse_transform in Hx.
    destruct (nth_error (le_crop b) idx) as [nm|] eqn:N; simpl in Hx;
      [|discriminate].
    injection Hx as <-. cbn. repeat split. now apply nth_error_In in N.
  - reflexivity.
Qed.

Lemma rendered_predictions_witness :
  List.length
    match predictcrop (Some short_bundle) None None no_details sample with
    | Results predictions _ => predictions
    | _ => []
    end = 3%nat.
Proof.
  destruct (predictcrop (Some short_bundle) None None no_details sample)
    as [| |ps rd] eqn:E; try discriminate E.
  apply (proj1 (rendered_predictions short_bundle None None no_details sample
                  ps rd E)).
Defined.

End AppMore.

(** ** The lazily filled globals *)

Module AppGlobalsFacts.
Import Weather App AppGlobals Props Samples Cases.

Lemma bundle_filled (env : environment) (g : globals) :
  _model_bundle (fst (get_model_bundle env g)) <> None.
Proof.
  unfold get_model_bundle.
  destruct (_model_bundle g) as [v|] eqn:E; cbn; congruence.
Qed.

Lemma get_risk_engine_bundle (env : environment) (g : globals) :
  _model_bundle (fst (get_risk_engine env g)) = _model_bundle g.
Proof. unfold get_risk_engine. now destruct (_risk_engine g). Qed.

(** X15.  The model file is loaded at most once: after any request the global
    is filled, and later requests do not depend on what loading would give.
    A failed first load is kept, so every later request ends in the
    warming-up notice even when the file could be loaded by then. *)
Theorem model_loaded_once (env : environment) (g : globals)
    (location : option string)
    (crop_details : string -> list (string * string))
    (form : SimplePredictor.input) :
  let g1 := fst (predictcrop_post env g location crop_details form) in
  _model_bundle g1 <> None
  /\ (forall env' env'' location' crop_details' form',
        make_engine env' = make_engine env'' ->
        predictcrop_post env' g1 location' crop_details' form'
        = predictcrop_post env'' g1 location' crop_details' form')
  /\ (_model_bundle g = None -> load env = None ->
      snd (predictcrop_post env g location crop_details form) = WarmingUp
      /\ forall env' location' crop_details' form',
           predictcrop_post env' g1 location' crop_details' form'
           = (g1, WarmingUp)).
Proof.
  cbv zeta.
  assert (F : _model_bundle
                (fst (predictcrop_post env g location crop_details form))
              <> None).
  { unfold predictcrop_post.
    pose proof (bundle_filled env g) as B.
    destruct (get_model_bundle env g) as [g1 [b|]]; cbn in *; trivial.
    destruct (features b form); cbn; trivial.
    destruct (top_3_crops _ _ _); cbn; trivial.
    pose proof (get_risk_engine_bundle env g1) as R.
    destruct (get_risk_engine env g1) as [g2 e]; cbn in *. congruence. }
  split; [exact F|]. split.
  - intros env' env'' location' crop_details' form' M.
    revert F.
    generalize (fst (predictcrop_post env g location crop_details form)).
    intros g1 F. unfold predictcrop_post, get_model_bundle, get_risk_engine.
    destruct (_model_bundle g1) as [v|]; [|congruence]. now rewrite M.
  - intros Hg Hl. unfold predictcrop_post, get_model_bundle.
    rewrite Hg, Hl. cbn. split; trivial.
Qed.

Lemma model_loaded_once_witness :
  predictcrop_post up
    (fst (predictcrop_post down fresh None no_details sample))
    None no_details sample
  = (fst (predictcrop_post down fresh None no_details sample), WarmingUp).
Proof.
  apply (proj2 (proj2 (proj2 (model_loaded_once down fresh None no_details
                                sample)) eq_refl eq_refl)).
Defined.

End AppGlobalsFacts.

(** ** Images and crop details *)

Module CropDetailsFacts.
Import CropDetails PyMore Terms.
Local Open Scope string_scope.

Lemma endswith_app (s suffix : string) : endswith (s ++ suffix) suffix = true.
Proof.
  induction s as [|c r IH]; simpl.
  - destruct suffix; simpl; rewrite ?Ascii.eqb_refl, ?String.eqb_refl; trivial.
  - rewrite IH. apply orb_true_r.
Qed.

Lemma get_image_filename_base (files : list string) (image_name : string) :
  get_image_filename (Some files) image_name
  = match find (fun f => String.eqb (Py.lower f) (base_name image_name)) files with
    | Some f => f
    | None => "default.jpg"
    end.
Proof. reflexivity. Qed.

(** X16.  [get_image_filename] returns the default name or a file of the images
    folder whose lower-cased name is the lower-cased image name with its
    [.jpg]; such a file is returned again when its own name is looked
    up. *)
Theorem get_image_filename_safe (folder : option (list string))
    (image_name : string) :
  get_image_filename folder image_name = "default.jpg"
  \/ exists files,
       folder = Some files
       /\ In (get_image_filename folder image_name) files
       /\ Py.lower (get_image_filename folder image_name) = base_name image_name
       /\ get_image_filename folder (get_image_filename folder image_name)
          = get_image_filename folder image_name.
Proof.
  destruct folder as [files|]; [|now left].
  rewrite get_image_filename_base.
  destruct (find _ files) as [f|] eqn:E; [|now left]. right.
  exists files. pose proof (find_some _ _ E) as [Hin Hf].
  apply String.eqb_eq in Hf.
  split; [reflexivity|]. split; [exact Hin|]. split; [exact Hf|].
  rewrite get_image_filename_base.
  assert (B : base_name f = base_name image_name).
  { unfold base_name at 1. rewrite Hf. unfold base_name.
    destruct (endswith (Py.lower image_name) ".jpg") eqn:W.
    - now rewrite W.
    - now rewrite endswith_app. }
  now rewrite B, E.
Qed.



Lemma get_setdefault (d : dict) (k v k' v' : string) :
  k <> k' \/ v = v' ->
  get (setdefault d k v) k' v' = get d k' v'.
Proof.
  intro H. unfold setdefault.
  destruct (has d k) eqn:E; trivial.
  induction d as [|[a b] r IH]; simpl in *.
  - destruct (String.eqb_spec k k') as [->|N]; trivial.
    destruct H as [H|H]; [contradiction | exact H].
  - apply orb_false_iff in E. destruct E as [E1 E2].
    destruct (String.eqb a k'); trivial. now apply IH.
Qed.

Lemma get_details_of (folder : option (list string)) (source : dict) (key : string) :
  In key texts -> get (details_of folder source) key "N/A" = get source key "N/A".
Proof.
  unfold texts. cbn [In].
  intros [<-|[<-|[<-|[<-|[]]]]]; reflexivity.
Qed.

(** X18.  A fresh prediction and the saved one show the same planting,
    fertilizer, irrigation and yield text for a crop, with or without the
    crop collection. *)
Theorem details_get_post_agree (folder : option (list string))
    (crop_col : collection) (crop_name key : string) :
  In key texts ->
  get (details_get folder crop_col crop_name) key "N/A"
  = get (details_post folder crop_col crop_name) key "N/A".
Proof.
  intro K. unfold details_get, details_post.
  assert (I : "image" <> key).
  { unfold texts in K. cbn [In] in K. intuition (subst; discriminate). }
  rewrite get_setdefault by (now left).
  rewrite !get_setdefault by (now right).
  destruct (mongo_crop crop_col crop_name) as [m|]; trivial.
  now rewrite get_details_of.
Qed.

Lemma details_get_post_agree_witness :
  get (details_get None None "Rice") "yield" "N/A"
  = get (details_post None None "Rice") "yield" "N/A".
Proof.
  apply details_get_post_agree. unfold texts. cbn. auto.
Defined.

(** X20.  Every crop of the rule-based catalog has an entry in the details table.
    For every crop of the table none of the four texts is the placeholder,
    and without a collection the saved-prediction branch returns the table
    entry as it is, so that the shared table stays unchanged. *)
Theorem catalog_crops_have_details (folder : option (list string))
    (crop_name key : string) :
  incl (map fst SimplePredictor.crops_db) (map fst crop_details)
  /\ (In crop_name (map fst crop_details) ->
      In key texts ->
      get (details_post folder None crop_name) key "N/A" <> "N/A"
      /\ get (details_get folder None crop_name) key "N/A" <> "N/A"
      /\ details_get folder None crop_name = local_crop crop_details crop_name).
Proof.
  split.
  - intros c. unfold SimplePredictor.crops_db, crop_details. cbn [map fst In].
    intros H. repeat (destruct H as [<-|H]; [auto 40|]). contradiction.
  - unfold crop_details at 1, texts. cbn [map fst In].
    intros C K.
    repeat (destruct C as [<-|C]; [
      repeat (destruct K as [<-|K]; [repeat split; discriminate|]);
      contradiction|]).
    contradiction.
Qed.

Lemma catalog_crops_have_details_witness :
  get (details_post None None "Tea") "planting" "N/A" <> "N/A".
Proof.
  apply (proj2 (catalog_crops_have_details None "Tea" "planting"));
    cbn; auto 40.
Defined.

Lemma has_app (d d' : dict) (key : string) :
  has (d ++ d')%list key = has d key || has d' key.
Proof. unfold has. apply existsb_app. Qed.

Lemma has_setdefault_same (d : dict) (k v : string) :
  has (setdefault d k v) k = true.
Proof.
  unfold setdefault. destruct (has d k) eqn:E; trivial.
  rewrite has_app, E. cbn. now rewrite String.eqb_refl.
Qed.

Lemma has_setdefault_mono (d : dict) (k v key : string) :
  has d key = true -> has (setdefault d k v) key = true.
Proof.
  intro H. unfold setdefault. destruct (has d k); trivial.
  now rewrite has_app, H.
Qed.

(** X19.  The details of a saved prediction always have the five keys that the
    page reads. *)
Theorem details_get_complete (folder : option (list string))
    (crop_col : collection) (crop_name key : string) :
  In key (texts ++ ["image"])%list ->
  has (details_get folder crop_col crop_name) key = true.
Proof.
  unfold texts. cbn [app In]. unfold details_get.
  intros [<-|[<-|[<-|[<-|[<-|[]]]]]];
    repeat first [apply has_setdefault_same | apply has_setdefault_mono].
Qed.

Lemma details_get_complete_witness :
  has (details_get None None "Quinoa") "yield" = true.
Proof.
  apply details_get_complete. cbn. auto 10.
Defined.

End CropDetailsFacts.

(** ** The saved prediction *)

Module SavedFacts.
Import Weather App CropDetails Saved AppMore.

(** X21.  What the request renders can be saved, and reading the saved prediction
    back gives the same three crop names and confidences, in the same order,
    and the risk figures that were shown. *)
Theorem saved_prediction_round_trip (b : bundle)
    (risk_engine : option ClimateRiskEngine) (location : option string)
    (crop_details : string -> list (string * string))
    (form : SimplePredictor.input)
    (predictions : list crop) (risk_data : risk_scores)
    (folder : option (list string)) (crop_col : collection) :
  predictcrop (Some b) risk_engine location crop_details form
  = Results predictions risk_data ->
  exists last_pred,
    new_pred predictions risk_data = Some last_pred
    /\ map name (saved_predictions folder crop_col last_pred)
       = map name predictions
    /\ map confidence (saved_predictions folder crop_col last_pred)
       = map confidence predictions
    /\ saved_risk_data last_pred
       = (Some (inject_Z (Weather.drought_risk risk_data)),
          Some (inject_Z (Weather.flood_risk risk_data))).
Proof.
  intro H. apply results_three in H. destruct H as (c1 & c2 & c3 & ->).
  eexists. split; [reflexivity|]. repeat split.
Qed.

Lemma saved_prediction_round_trip_witness :
  exists last_pred,
    map name (saved_predictions None None last_pred)
    = ["Millets"; "Rice"; "Maize"]%string.
Proof.
  destruct (predictcrop (Some Samples.short_bundle) None None
              Samples.no_details Samples.sample) as [| |ps rd] eqn:E;
    try discriminate E.
  destruct (saved_prediction_round_trip _ _ _ _ _ ps rd None None E)
    as (row & _ & Hn & _).
  exists row. rewrite Hn.
  vm_compute in E. injection E as <- _. reflexivity.
Defined.

End SavedFacts.

(** ** The dashboard figures *)

Module DashboardFacts.
Import PyFacts Saved Dashboard PyMore Cases.

Lemma fold_sum_bounds (lo hi : Q) (l : list Q) (acc : Q) :
  Forall (fun x => (lo <= x <= hi)%Q) l ->
  (acc + inject_Z (Z.of_nat (List.length l)) * lo
   <= fold_left Qplus l acc
   <= acc + inject_Z (Z.of_nat (List.length l)) * hi)%Q.
Proof.
  intro F. revert acc. induction F as [|x l [Hx1 Hx2] _ IH]; intro acc.
  - simpl. change (inject_Z 0) with 0%Q. split; lra.
  - cbn [fold_left List.length]. rewrite Nat2Z.inj_succ.
    unfold Z.succ. rewrite inject_Z_plus. change (inject_Z 1) with 1%Q.
    destruct (IH (acc + x)%Q) as [I1 I2].
    set (m := inject_Z (Z.of_nat (List.length l))) in *.
    split; nra.
Qed.
(** X22.  The average confidence of the dashboard lies between any two integers
    that bound the first confidences of a non-empty history; in particular
    it is within 0 and 100 when they are. *)
Theorem avg_confidence_between (lo hi : Z) (user_preds : list Prediction) :
  user_preds <> [] ->
  Forall (fun p => (inject_Z lo <= confidence1 p <= inject_Z hi)%Q) user_preds ->
  lo <= avg_confidence (dashboard_stats user_preds) <= hi.
Proof.
  intros NE F.
  destruct user_preds as [|p0 r] eqn:E; [congruence|]. rewrite <- E in *.
  assert (S : avg_confidence (dashboard_stats user_preds)
              = Py.round (total_conf user_preds
                          / inject_Z (Z.of_nat (List.length user_preds)))).
  { rewrite E. reflexivity. }
  rewrite S. clear S.
  assert (Fq : Forall (fun x => (inject_Z lo <= x <= inject_Z hi)%Q)
                 (map confidence1 user_preds)).
  { apply Forall_forall. intros x Hx. apply in_map_iff in Hx.
    destruct Hx as [p [<- Hp]]. rewrite Forall_forall in F. now apply F. }
  pose proof (fold_sum_bounds _ _ _ 0%Q Fq) as [B1 B2].
  rewrite length_map in B1, B2. fold (total_conf user_preds) in B1, B2.
  assert (Npos : (0 < inject_Z (Z.of_nat (List.length user_preds)))%Q).
  { change 0%Q with (inject_Z 0). rewrite <- Zlt_Qlt. rewrite E. simpl. lia. }
  set (m := inject_Z (Z.of_nat (List.length user_preds))) in *.
  split.
  - apply round_ge. apply Qle_shift_div_l; trivial. lra.
  - apply round_le. apply Qle_shift_div_r; trivial. lra.
Qed.

Lemma avg_confidence_between_witness :
  0 <= avg_confidence (dashboard_stats two_predictions) <= 100.
Proof.
  apply avg_confidence_between; [discriminate|].
  repeat constructor; unfold Qle; simpl; lia.
Defined.

Lemma count_from (l : list Prediction) (acc : Z) :
  fold_left
    (fun total p =>
       let total := if nonempty (crop1 p) then total + 1 else total in
       let total := if nonempty (crop2 p) then total + 1 else total in
       if nonempty (crop3 p) then total + 1 else total) l acc
  = acc + count_recommendations l.
Proof.
  unfold count_recommendations.
  set (F := fun (total : Z) (p : Prediction) =>
       let total := if nonempty (crop1 p) then total + 1 else total in
       let total := if nonempty (crop2 p) then total + 1 else total in
       if nonempty (crop3 p) then total + 1 else total).
  revert acc. induction l as [|p r IH]; intro acc; cbn [fold_left]; [lia|].
  rewrite (IH (F acc p)), (IH (F 0 p)). unfold F.
  destruct (nonempty (crop1 p)), (nonempty (crop2 p)), (nonempty (crop3 p)); lia.
Qed.

(** X23.  The dashboard counts at most three recommendations per saved
    prediction, and exactly three when no crop name is empty. *)
Theorem total_recommendations_bounds (user_preds : list Prediction) :
  0 <= total_recommendations (dashboard_stats user_preds)
    <= 3 * Z.of_nat (List.length user_preds)
  /\ (Forall (fun p => crop1 p <> EmptyString /\ crop2 p <> EmptyString
                       /\ crop3 p <> EmptyString) user_preds ->
      total_recommendations (dashboard_stats user_preds)
      = 3 * Z.of_nat (List.length user_preds)).
Proof.
  assert (S : total_recommendations (dashboard_stats user_preds)
              = count_recommendations user_preds).
  { destruct user_preds; reflexivity. }
  rewrite S. clear S. split.
  - induction user_preds as [|p r IH].
    + cbn. lia.
    + unfold count_recommendations. cbn [fold_left List.length].
      rewrite count_from, Nat2Z.inj_succ.
      destruct (nonempty (crop1 p)), (nonempty (crop2 p)), (nonempty (crop3 p)); lia.
  - induction 1 as [|p r (H1 & H2 & H3) _ IH].
    + reflexivity.
    + unfold count_recommendations. cbn [fold_left List.length].
      rewrite count_from, Nat2Z.inj_succ, IH.
      destruct (crop1 p), (crop2 p), (crop3 p); try congruence;
        cbn [nonempty]; lia.
Qed.

Lemma total_recommendations_bounds_witness :
  total_recommendations (dashboard_stats (firstn 1 two_predictions))
  = 3 * Z.of_nat (List.length (firstn 1 two_predictions)).
Proof.
  apply (proj2 (total_recommendations_bounds (firstn 1 two_predictions))).
  repeat constructor; discriminate.
Defined.

Lemma last_app {A : Type} (l : list A) (x d : A) : last (l ++ [x]) d = x.
Proof.
  induction l as [|y r IH]; trivial.
  cbn [app last]. destruct (r ++ [x]) eqn:E; [now destruct r|]. exact IH.
Qed.

Lemma stats_latest (l : list Prediction) (p : Prediction) :
  (risk_level (dashboard_stats (l ++ [p])), risk_class (dashboard_stats (l ++ [p])))
  = level_of (Qmax (or0 (drought_risk p)) (or0 (flood_risk p))).
Proof.
  destruct l as [|q r]; cbn [app dashboard_stats risk_level risk_class].
  - cbn [last]. now destruct (level_of _).
  - rewrite last_app. now destruct (level_of _).
Qed.

(** X24.  For a non-empty history the risk level and its class are one of the
    three matching pairs and depend on the latest prediction only: HIGH
    exactly when its drought or flood risk is at least 70, LOW exactly when
    both are below 30; a null risk counts as 0. *)
Theorem risk_level_of_latest (l : list Prediction) (p : Prediction) :
  In (risk_level (dashboard_stats (l ++ [p])),
      risk_class (dashboard_stats (l ++ [p])))
     [("LOW", "text-success"); ("MODERATE", "text-warning");
      ("HIGH", "text-danger")]%string
  /\ (forall l', risk_level (dashboard_stats (l' ++ [p]))
                 = risk_level (dashboard_stats (l ++ [p])))
  /\ (risk_level (dashboard_stats (l ++ [p])) = "HIGH"%string
      <-> (70 <= or0 (drought_risk p))%Q \/ (70 <= or0 (flood_risk p))%Q)
  /\ (risk_level (dashboard_stats (l ++ [p])) = "LOW"%string
      <-> (or0 (drought_risk p) < 30)%Q /\ (or0 (flood_risk p) < 30)%Q).
Proof.
  pose proof (stats_latest l p) as S.
  assert (Lv : risk_level (dashboard_stats (l ++ [p]))
               = fst (level_of (Qmax (or0 (drought_risk p)) (or0 (flood_risk p)))))
    by (now rewrite <- S).
  split; [|split; [|split]].
  - rewrite S. unfold level_of.
    destruct (Py.ltb _ 30); [|destruct (Py.ltb _ 70)]; cbn; auto.
  - intro l'. pose proof (stats_latest l' p) as S'.
    transitivity (fst (level_of (Qmax (or0 (drought_risk p)) (or0 (flood_risk p))))).
    + now rewrite <- S'.
    + now rewrite Lv.
  - rewrite Lv. unfold level_of.
    set (m := Qmax _ _).
    assert (M : forall c, (c <= m)%Q <->
                (c <= or0 (drought_risk p))%Q \/ (c <= or0 (flood_risk p))%Q).
    { intro c. unfold m. apply Q.max_le_iff. }
    destruct (Py.ltb m 30) eqn:A; [|destruct (Py.ltb m 70) eqn:B]; cbn.
    + apply ltb_lt in A. split; [discriminate|]. intro H. apply M in H. lra.
    + apply ltb_lt in B. split; [discriminate|]. intro H. apply M in H. lra.
    + apply ltb_ge in B. split; trivial. intros _. now apply M.
  - rewrite Lv. unfold level_of.
    set (m := Qmax _ _).
    assert (M : (m < 30)%Q <->
                (or0 (drought_risk p) < 30)%Q /\ (or0 (flood_risk p) < 30)%Q).
    { unfold m. apply Q.max_lub_lt_iff. }
    destruct (Py.ltb m 30) eqn:A; [|destruct (Py.ltb m 70) eqn:B]; cbn.
    + apply ltb_lt in A. split; trivial. intros _. now apply M.
    + apply ltb_ge in A. split; [discriminate|]. intro H. apply M in H. lra.
    + apply ltb_ge in A. split; [discriminate|]. intro H. apply M in H. lra.
Qed.

End DashboardFacts.

(** ** The chatbot *)

Module ChatbotFacts.
Import Chatbot PyMore Terms Cases.
Local Open Scope string_scope.

(** X25.  When no provider answers, the bot returns one of its six written
    answers, chosen by the query alone and without regard to case; a query
    that mentions rice gets the rice answer whatever else it mentions. *)
Theorem silent_providers_manual_answer (self : AgriBot) (query : string) :
  silent self query ->
  get_answer self query = Some (manual_answer query)
  /\ In (manual_answer query) canned
  /\ manual_answer (Py.lower query) = manual_answer query
  /\ (contains "rice" (Py.lower query) = true ->
      manual_answer query = rice_answer).
Proof.
  intros (G & M & O). unfold get_answer. fold (prompt_of self query).
  rewrite G, M, O. split; [reflexivity|]. unfold manual_answer, canned.
  split; [|split].
  - repeat match goal with |- context [if ?b then _ else _] => destruct b end;
      cbn [In]; auto 10.
  - now rewrite lower_idem.
  - now intros ->.
Qed.

Lemma silent_providers_manual_answer_witness :
  get_answer bare "Which NPK for RICE and wheat?" = Some rice_answer.
Proof.
  destruct (silent_providers_manual_answer bare "Which NPK for RICE and wheat?")
    as (H1 & _ & _ & H4); [repeat split|].
  rewrite H1, H4; reflexivity.
Defined.

(** X26.  The bot returns [None] in two cases only: Groq answers with an empty
    content, or Groq and Gemini give nothing and Ollama answers with a body
    that has no [response] field. *)
Theorem get_answer_none_iff (self : AgriBot) (query : string) :
  get_answer self query = None
  <-> try_groq self (prompt_of self query) = Some None
      \/ (try_groq self (prompt_of self query) = None
          /\ try_gemini self (prompt_of self query) = None
          /\ ollama self (prompt_of self query) = Some None).
Proof.
  unfold get_answer. fold (prompt_of self query).
  destruct (try_groq self (prompt_of self query)) as [[c|]|];
    [split; [discriminate | intros [H|[H _]]; discriminate]
    | split; auto | ].
  destruct (try_gemini self (prompt_of self query)) as [t|];
    [split; [discriminate | intros [H|(_ & H & _)]; discriminate]|].
  destruct (ollama self (prompt_of self query)) as [[r|]|].
  - split; [discriminate | intros [H|(_ & _ & H)]; discriminate].
  - split; auto.
  - split; [discriminate | intros [H|(_ & _ & H)]; discriminate].
Qed.

Lemma get_answer_none_iff_witness : get_answer mute_ollama "rice" = None.
Proof.
  apply (proj2 (get_answer_none_iff mute_ollama "rice")).
  right. repeat split.
Defined.

End ChatbotFacts.
